(** * GLIK backend: risk scoring, trend generation and the scan stub

    A shallow embedding of [main.py] and the properties of its three
    workers, [calculate_risk], [generate_trend] and [scan_product].

    Python values are modelled as the interpreter has them: an [int] is an
    unbounded integer ([Z]), a [float] is an IEEE 754 binary64 value
    ([spec_float], with the arithmetic of [SpecFloat] at precision 53 and
    maximal exponent 1024), a [str] is a [string].  The process-global
    generator of the [random] module is an explicit state threaded through
    the code that draws from it. *)

From Stdlib Require Import ZArith List String Ascii Bool Lia.
From Stdlib Require Import Floats.SpecFloat.
Import ListNotations.

Local Open Scope string_scope.
Local Open Scope list_scope.
Local Open Scope Z_scope.

(* ================================================================= *)
(** ** Python numbers *)

Module Py.

(** Exceptions the modelled code can raise. *)
Inductive exn : Type :=
| ValueError
| OverflowError
| IndexError.

(** The outcome of evaluating an expression: a value or an exception. *)
Inductive outcome (A : Type) : Type :=
| Return (a : A)
| Raise (e : exn).
Arguments Return {A} a.
Arguments Raise {A} e.

Definition float : Type := spec_float.

Definition prec : Z := 53.
Definition emax : Z := 1024.

(** [float(z)] for an int that a double holds (round to nearest even). *)
Definition float_of_int (z : Z) : float := binary_normalize prec emax z 0 false.

(** The float [m * 2^e], rounded to nearest even. *)
Definition float_lit (m e : Z) : float := binary_normalize prec emax m e false.

Definition nan : float := S754_nan.
Definition inf : float := S754_infinity false.

(** A number at run time: the code's [current] starts as a float and can
    become an int, since [min] and [max] return one of their arguments. *)
Inductive num : Type :=
| Int (z : Z)
| Float (f : float).

(** The signed mantissa of a finite float. *)
Definition signed (s : bool) (m : positive) : Z :=
  if s then Z.neg m else Z.pos m.

(** Comparison of a float with an int is exact in CPython (no rounding of
    the int); [None] when the float is a NaN, for which every ordering
    test and [==] is false. *)
Definition float_compare_int (f : float) (z : Z) : option comparison :=
  match f with
  | S754_nan => None
  | S754_infinity s => Some (if s then Lt else Gt)
  | S754_zero _ => Some (0 ?= z)
  | S754_finite s m e =>
      if 0 <=? e then Some (signed s m * 2 ^ e ?= z)
      else Some (signed s m ?= z * 2 ^ (- e))
  end.

Definition opt_CompOpp (c : option comparison) : option comparison :=
  match c with
  | Some c => Some (CompOpp c)
  | None => None
  end.

Definition compare (a b : num) : option comparison :=
  match a, b with
  | Int x, Int y => Some (x ?= y)
  | Float f, Int y => float_compare_int f y
  | Int x, Float g => opt_CompOpp (float_compare_int g x)
  | Float f, Float g => SFcompare f g
  end.

(** [a < b], [a > b] and [a == b]. *)
Definition lt (a b : num) : bool :=
  match compare a b with Some Lt => true | _ => false end.
Definition gt (a b : num) : bool :=
  match compare a b with Some Gt => true | _ => false end.
Definition eq (a b : num) : bool :=
  match compare a b with Some Eq => true | _ => false end.

(** [a <= b]. *)
Definition le (a b : num) : bool :=
  match compare a b with Some (Lt | Eq) => true | _ => false end.

(** [a + b]; an int operand of a float addition is converted first. *)
Definition add (a b : num) : num :=
  match a, b with
  | Int x, Int y => Int (x + y)
  | Float f, Int y => Float (SFadd prec emax f (float_of_int y))
  | Int x, Float g => Float (SFadd prec emax (float_of_int x) g)
  | Float f, Float g => Float (SFadd prec emax f g)
  end.

(** The builtin [min(a, b)]: the first argument unless the second is
    strictly smaller; [max(a, b)]: the first unless the second is
    strictly greater. *)
Definition min (a b : num) : num := if lt b a then b else a.
Definition max (a b : num) : num := if gt b a then b else a.

(** The same builtins on two ints. *)
Definition imin (a b : Z) : Z := if b <? a then b else a.
Definition imax (a b : Z) : Z := if b >? a then b else a.

(** [int(x)]: truncation toward zero; a NaN raises [ValueError], an
    infinity [OverflowError]. *)
Definition int (x : num) : outcome Z :=
  match x with
  | Int z => Return z
  | Float S754_nan => Raise ValueError
  | Float (S754_infinity _) => Raise OverflowError
  | Float (S754_zero _) => Return 0
  | Float (S754_finite s m e) =>
      if 0 <=? e then Return (signed s m * 2 ^ e)
      else Return (Z.quot (signed s m) (2 ^ (- e)))
  end.

(** [math.floor(x)]: rounding toward minus infinity, with the same
    exceptions as [int]. *)
Definition floor (x : num) : outcome Z :=
  match x with
  | Int z => Return z
  | Float S754_nan => Raise ValueError
  | Float (S754_infinity _) => Raise OverflowError
  | Float (S754_zero _) => Return 0
  | Float (S754_finite s m e) =>
      if 0 <=? e then Return (signed s m * 2 ^ e)
      else Return (Z.div (signed s m) (2 ^ (- e)))
  end.

Definition is_finite (f : float) : bool :=
  match f with
  | S754_zero _ | S754_finite _ _ _ => true
  | S754_infinity _ | S754_nan => false
  end.

(** [sep.join(l)]. *)
Definition join (sep : string) (l : list string) : string := String.concat sep l.

(** Truth value of a list: non-empty. *)
Definition truthy {A : Type} (l : list A) : bool :=
  match l with
  | [] => false
  | _ :: _ => true
  end.

End Py.

(* ================================================================= *)
(** ** Models of [main.py] *)

Record PatientData : Type := {
  glucose : Py.float;
  insulin_units : Py.float;
  carbs_grams : Py.float;
  activity_level : Py.float;
  stress_level : Py.float;
  mood : string
}.

(** The field defaults of the model class; [mood] defaults to the UTF-8
    bytes of U+1F610. *)
Definition default_mood : string :=
  String (ascii_of_nat 240) (String (ascii_of_nat 159)
    (String (ascii_of_nat 152) (String (ascii_of_nat 144) EmptyString))).

Definition PatientData_defaults (g : Py.float) : PatientData :=
  {| glucose := g;
     insulin_units := Py.float_of_int 0;
     carbs_grams := Py.float_of_int 0;
     activity_level := Py.float_of_int 5;
     stress_level := Py.float_of_int 5;
     mood := default_mood |}.

(** Lines 42-70 of [calculate_risk]: [score] and [reasons] are the two
    locals the source updates in place; each [if] of the source is one
    rebinding here.  The result is their value when the clamp is reached. *)
Definition score_and_reasons (data : PatientData) : Z * list string :=
  let score := 0 in
  let reasons : list string := [] in
  (* Base risk from glucose *)
  let '(score, reasons) :=
    if Py.gt (Py.Float (glucose data)) (Py.Int 180) then
      (score + 60, reasons ++ ["Current glucose is elevated."])
    else if Py.lt (Py.Float (glucose data)) (Py.Int 70) then
      (score + 50, reasons ++ ["Risk of hypoglycemia."])
    else
      (score + 10, reasons) in
  (* Impact contributors *)
  let '(score, reasons) :=
    if Py.gt (Py.Float (carbs_grams data)) (Py.Int 60) then
      (score + 20, reasons ++ ["High carb intake detected."])
    else (score, reasons) in
  let '(score, reasons) :=
    if Py.gt (Py.Float (stress_level data)) (Py.Int 7) then
      (score + 15, reasons ++ ["High stress levels can spike glucose."])
    else (score, reasons) in
  let '(score, reasons) :=
    if Py.lt (Py.Float (activity_level data)) (Py.Int 3) then
      (score + 10, reasons ++ ["Low activity increases persistence of high glucose."])
    else (score, reasons) in
  let '(score, reasons) :=
    if Py.eq (Py.Float (insulin_units data)) (Py.Int 0)
       && Py.gt (Py.Float (glucose data)) (Py.Int 150) then
      (score + 10, reasons ++ ["Missed insulin correction?"])
    else (score, reasons) in
  (score, reasons).

(** [calculate_risk]: the accumulation above, then lines 72-84. *)
Definition calculate_risk (data : PatientData) : Z * string * string :=
  let '(score, reasons) := score_and_reasons data in
  (* Clamp score *)
  let score := Py.imin (Py.imax score 0) 100 in
  (* Label *)
  let label :=
    if score <? 30 then "Low"
    else if score <? 70 then "Medium"
    else "High" in
  let explanation :=
    if Py.truthy reasons then Py.join " " reasons else "Levels look stable." in
  (score, label, explanation).

(* ================================================================= *)
(** ** The [random] module *)

Module Random.

(** The generator's state: an unbounded tape of raw draws and a cursor
    counting how many have been consumed.  Quantifying over every tape is
    quantifying over every sequence of random draws. *)
Record state : Type := { tape : nat -> Z; cursor : nat }.

Definition advance (r : state) : state :=
  {| tape := tape r; cursor := S (cursor r) |}.

(** Code that may raise and that reads and advances the generator. *)
Definition M (A : Type) : Type := state -> Py.outcome (A * state).

Definition ret {A : Type} (a : A) : M A := fun r => Py.Return (a, r).

Definition bind {A B : Type} (c : M A) (k : A -> M B) : M B :=
  fun r =>
    match c r with
    | Py.Return (a, r') => k a r'
    | Py.Raise e => Py.Raise e
    end.

Definition raise {A : Type} (e : Py.exn) : M A := fun _ => Py.Raise e.

Definition lift {A : Type} (o : Py.outcome A) : M A :=
  fun r =>
    match o with
    | Py.Return a => Py.Return (a, r)
    | Py.Raise e => Py.Raise e
    end.

(** [_randbelow(n)]: some integer of [[0, n)], one draw consumed. *)
Definition randbelow (n : Z) : M Z :=
  fun r => Py.Return (tape r (cursor r) mod n, advance r).

(** [randint(a, b)] is [randrange(a, b + 1)], that is
    [a + _randbelow(b + 1 - a)]; an empty range raises [ValueError]. *)
Definition randint (a b : Z) : M Z :=
  if b <? a then raise Py.ValueError
  else bind (randbelow (b + 1 - a)) (fun k => ret (a + k)).

(** [choice(seq)] is [seq[_randbelow(len(seq))]]; an empty sequence
    raises [IndexError]. *)
Definition choice {A : Type} (seq : list A) : M A :=
  match seq with
  | [] => raise Py.IndexError
  | _ :: _ =>
      bind (randbelow (Z.of_nat (List.length seq)))
           (fun i =>
              match nth_error seq (Z.to_nat i) with
              | Some x => ret x
              | None => raise Py.IndexError
              end)
  end.

End Random.

Declare Scope py_scope.
Delimit Scope py_scope with py.
Notation "x <- c ;; k" := (Random.bind c (fun x => k))
  (at level 100, c at next level, right associativity) : py_scope.

(** The loop of [generate_trend], [n] iterations left. *)
Fixpoint generate_trend_loop (n : nat) (series : list Z) (current : Py.num)
  : Random.M (list Z) :=
  match n with
  | O => Random.ret series
  | S n' =>
      (v <- Random.lift (Py.int current) ;;
       let series := series ++ [v] in
       change <- Random.randint (-15) 15 ;;
       let current := Py.add current (Py.Int change) in
       let current := Py.max (Py.Int 60) (Py.min (Py.Int 350) current) in
       generate_trend_loop n' series current)%py
  end.

Definition generate_trend (start_glucose : Py.float) : Random.M (list Z) :=
  let series := [] in
  let current := Py.Float start_glucose in
  generate_trend_loop 14 series current.

Record RiskResponse : Type := {
  risk_score : Z;
  risk_label : string;
  explanation : string;
  glucose_series_14d : list Z
}.

Definition predict_risk (data : PatientData) : Random.M RiskResponse :=
  let '(score, label, explanation) := calculate_risk data in
  (trend <- generate_trend (glucose data) ;;
   Random.ret {| risk_score := score;
                 risk_label := label;
                 explanation := explanation;
                 glucose_series_14d := trend |})%py.

(** An entry of the [products] table: a dict literal with the four keys
    [name], [carbs], [risk] and [expl]. *)
Record product : Type := {
  name : string;
  carbs : Z;
  risk : string;
  expl : string
}.

(** The response model of [/scan]; its fields [risk_label], [risk_score]
    and [explanation] carry the prefix [scan_] here, the names being taken
    by [RiskResponse]. *)
Record ScanResponse : Type := {
  product_name : string;
  estimated_carbs : Py.float;
  scan_risk_label : string;
  scan_risk_score : Z;
  scan_explanation : string
}.

Definition products : list product :=
  [ {| name := "Apple"; carbs := 25; risk := "Low";
       expl := "Natural sugars, high fiber." |};
    {| name := "Soda Can"; carbs := 40; risk := "High";
       expl := "High glycemic index, liquid sugar." |};
    {| name := "Pizza Slice"; carbs := 35; risk := "Medium";
       expl := "Fat/protein delays absorption, but high carb." |};
    {| name := "Salad"; carbs := 10; risk := "Low";
       expl := "Very low impact." |};
    {| name := "Donut"; carbs := 45; risk := "High";
       expl := "Refined carbs and fats." |} ].

(** [scan_product]; the uploaded [file] is not read. *)
Definition scan_product (file : string) : Random.M ScanResponse :=
  (detected <- Random.choice products ;;
   score <- (if String.eqb (risk detected) "High" then Random.randint 70 95
             else if String.eqb (risk detected) "Medium" then Random.randint 30 69
             else Random.randint 5 29) ;;
   Random.ret {| product_name := name detected;
                 estimated_carbs := Py.float_of_int (carbs detected);
                 scan_risk_label := risk detected;
                 scan_risk_score := score;
                 scan_explanation := expl detected |})%py.

(* ================================================================= *)
(** ** The specification's wording *)

(** Equality of two requests as Python decides it: field by field with
    [==], so that [0.0] and [-0.0] are equal and a NaN equals nothing. *)
Definition PatientData_eq (d1 d2 : PatientData) : bool :=
  Py.eq (Py.Float (glucose d1)) (Py.Float (glucose d2))
  && Py.eq (Py.Float (insulin_units d1)) (Py.Float (insulin_units d2))
  && Py.eq (Py.Float (carbs_grams d1)) (Py.Float (carbs_grams d2))
  && Py.eq (Py.Float (activity_level d1)) (Py.Float (activity_level d2))
  && Py.eq (Py.Float (stress_level d1)) (Py.Float (stress_level d2))
  && String.eqb (mood d1) (mood d2).

(** The three components of the result of [calculate_risk]. *)
Definition risk_score_of (d : PatientData) : Z := fst (fst (calculate_risk d)).
Definition risk_label_of (d : PatientData) : string := snd (fst (calculate_risk d)).
Definition risk_explanation_of (d : PatientData) : string := snd (calculate_risk d).

(** The additive rule: one term per bullet of the scoring table. *)
Definition spec_sum (d : PatientData) : Z :=
  0
  + (if Py.gt (Py.Float (glucose d)) (Py.Int 180) then 60
     else if Py.lt (Py.Float (glucose d)) (Py.Int 70) then 50
     else 10)
  + (if Py.gt (Py.Float (carbs_grams d)) (Py.Int 60) then 20 else 0)
  + (if Py.gt (Py.Float (stress_level d)) (Py.Int 7) then 15 else 0)
  + (if Py.lt (Py.Float (activity_level d)) (Py.Int 3) then 10 else 0)
  + (if Py.eq (Py.Float (insulin_units d)) (Py.Int 0)
        && Py.gt (Py.Float (glucose d)) (Py.Int 150) then 10 else 0).

(** The reasons that triggered, in the order of the table. *)
Definition spec_reasons (d : PatientData) : list string :=
  (if Py.gt (Py.Float (glucose d)) (Py.Int 180) then ["Current glucose is elevated."]
   else if Py.lt (Py.Float (glucose d)) (Py.Int 70) then ["Risk of hypoglycemia."]
   else [])
  ++ (if Py.gt (Py.Float (carbs_grams d)) (Py.Int 60)
      then ["High carb intake detected."] else [])
  ++ (if Py.gt (Py.Float (stress_level d)) (Py.Int 7)
      then ["High stress levels can spike glucose."] else [])
  ++ (if Py.lt (Py.Float (activity_level d)) (Py.Int 3)
      then ["Low activity increases persistence of high glucose."] else [])
  ++ (if Py.eq (Py.Float (insulin_units d)) (Py.Int 0)
         && Py.gt (Py.Float (glucose d)) (Py.Int 150)
      then ["Missed insulin correction?"] else []).

Definition spec_explanation (d : PatientData) : string :=
  match spec_reasons d with
  | [] => "Levels look stable."
  | rs => String.concat " " rs
  end.

(** The outcomes of the seven comparisons [calculate_risk] makes. *)
Record tests : Type := {
  glucose_gt_180 : bool;
  glucose_lt_70 : bool;
  carbs_gt_60 : bool;
  stress_gt_7 : bool;
  activity_lt_3 : bool;
  insulin_eq_0 : bool;
  glucose_gt_150 : bool
}.

Definition tests_of (d : PatientData) : tests :=
  {| glucose_gt_180 := Py.gt (Py.Float (glucose d)) (Py.Int 180);
     glucose_lt_70 := Py.lt (Py.Float (glucose d)) (Py.Int 70);
     carbs_gt_60 := Py.gt (Py.Float (carbs_grams d)) (Py.Int 60);
     stress_gt_7 := Py.gt (Py.Float (stress_level d)) (Py.Int 7);
     activity_lt_3 := Py.lt (Py.Float (activity_level d)) (Py.Int 3);
     insulin_eq_0 := Py.eq (Py.Float (insulin_units d)) (Py.Int 0);
     glucose_gt_150 := Py.gt (Py.Float (glucose d)) (Py.Int 150) |}.

(** The [i]-th step drawn after state [r]: [randint(-15, 15)]. *)
Definition spec_step (r : Random.state) (i : nat) : Z :=
  -15 + Random.tape r (Random.cursor r + i)%nat mod 31.

Definition clamp (x : Py.num) : Py.num :=
  Py.max (Py.Int 60) (Py.min (Py.Int 350) x).

(** The value of [current] at the start of iteration [i] of the walk:
    the start value, then the previous value plus its step, clamped. *)
Fixpoint spec_current (start : Py.num) (r : Random.state) (i : nat) : Py.num :=
  match i with
  | O => start
  | S j => clamp (Py.add (spec_current start r j) (Py.Int (spec_step r j)))
  end.

(** The trend as the specification words it: fourteen elements, the
    [i]-th being the floor of [current] at iteration [i]. *)
Definition trend_floor_spec (start : Py.float) (r : Random.state) : Prop :=
  exists series r',
    generate_trend start r = Py.Return (series, r')
    /\ List.length series = 14%nat
    /\ forall i, (i < 14)%nat ->
         Py.floor (spec_current (Py.Float start) r i) = Py.Return (nth i series 0).

(** The generator after [n] more draws. *)
Definition drawn (n : nat) (r : Random.state) : Random.state :=
  {| Random.tape := Random.tape r; Random.cursor := (Random.cursor r + n)%nat |}.

(** The five names of the catalog. *)
Definition product_names : list string :=
  ["Apple"; "Soda Can"; "Pizza Slice"; "Salad"; "Donut"].

(** The score range the scan path attaches to a label. *)
Definition in_bucket (label : string) (score : Z) : Prop :=
  (label = "High" /\ 70 <= score <= 95)
  \/ (label = "Medium" /\ 30 <= score <= 69)
  \/ (label = "Low" /\ 5 <= score <= 29).

(** The element [int(x)] contributes to the series ([0] when it raises). *)
Definition int_or_0 (x : Py.num) : Z :=
  match Py.int x with
  | Py.Return v => v
  | Py.Raise _ => 0
  end.

(** A value whose [int] and [floor] agree and lie in the clamp's range. *)
Definition in_walk_range (x : Py.num) : Prop :=
  exists v, Py.int x = Py.Return v /\ Py.floor x = Py.Return v /\ 60 <= v <= 350.

(** The label rule of [calculate_risk] (lines 76-81) as a function of the
    clamped score. *)
Definition label_of_score (score : Z) : string :=
  if score <? 30 then "Low"
  else if score <? 70 then "Medium"
  else "High".

(** The walk on ints: [n], then the previous value plus its step,
    clamped to [[60, 350]]. *)
Fixpoint int_walk (n : Z) (r : Random.state) (i : nat) : Z :=
  match i with
  | O => n
  | S j => Z.max 60 (Z.min 350 (int_walk n r j + spec_step r j))
  end.

(** A number whose value is the int [v]: the int itself or the float
    that [float(v)] gives. *)
Definition holds (v : Z) (x : Py.num) : Prop :=
  x = Py.Int v \/ x = Py.Float (Py.float_of_int v).



(** What [generate_trend] raises on a start value that is not finite:
    the exception of the first [int(current)]. *)
Definition generate_trend_raise {A : Type} (f : Py.float) : Py.outcome A :=
  match f with
  | S754_infinity _ => Py.Raise Py.OverflowError
  | _ => Py.Raise Py.ValueError
  end.

(** The response [scan_product] builds from a catalog entry and a score. *)
Definition scan_response (p : product) (score : Z) : ScanResponse :=
  {| product_name := name p;
     estimated_carbs := Py.float_of_int (carbs p);
     scan_risk_label := risk p;
     scan_risk_score := score;
     scan_explanation := expl p |}.

(** A generator whose first draw is [i] and whose later draws are [s]. *)
Definition scan_tape (i s : Z) : Random.state :=
  {| Random.tape := fun k => match k with O => i | S _ => s end;
     Random.cursor := 0 |}.

(** The step that [randint(-15, 15)] returns when its call of
    [_randbelow(31)] returns [x]. *)
Definition step_of_draw (x : Z) : Z := -15 + x mod 31.

(** The 31 results of [_randbelow(31)]; the generator returns each of
    them with the same probability. *)
Definition randbelow_31 : list Z := map Z.of_nat (seq 0 31).

(** Test inputs. *)
Definition all_risks : PatientData :=
  {| glucose := Py.float_of_int 200;
     insulin_units := Py.float_of_int 0;
     carbs_grams := Py.float_of_int 100;
     activity_level := Py.float_of_int 1;
     stress_level := Py.float_of_int 9;
     mood := default_mood |}.

Definition glucose_200 : PatientData := PatientData_defaults (Py.float_of_int 200).

(** Two requests that are [==] without being identical: [0.0] and [-0.0]. *)
Definition insulin_plus_zero : PatientData :=
  {| glucose := Py.float_of_int 160;
     insulin_units := S754_zero false;
     carbs_grams := Py.float_of_int 0;
     activity_level := Py.float_of_int 5;
     stress_level := Py.float_of_int 5;
     mood := default_mood |}.

Definition insulin_minus_zero : PatientData :=
  {| glucose := Py.float_of_int 160;
     insulin_units := S754_zero true;
     carbs_grams := Py.float_of_int 0;
     activity_level := Py.float_of_int 5;
     stress_level := Py.float_of_int 5;
     mood := default_mood |}.

(** Two requests with the same outcomes of the seven comparisons, one of
    them far outside the documented 0-10 range. *)
Definition in_range_request : PatientData :=
  {| glucose := Py.float_of_int 100;
     insulin_units := Py.float_of_int 2;
     carbs_grams := Py.float_of_int 30;
     activity_level := Py.float_of_int 2;
     stress_level := Py.float_of_int 8;
     mood := default_mood |}.

Definition out_of_range_request : PatientData :=
  {| glucose := Py.float_of_int 100;
     insulin_units := Py.float_of_int 2;
     carbs_grams := Py.float_of_int 30;
     activity_level := Py.float_of_int (-40);
     stress_level := Py.float_of_int 1000;
     mood := default_mood |}.

Definition glucose_60 : PatientData := PatientData_defaults (Py.float_of_int 60).

Definition minus_half : Py.float := Py.float_lit (-1) (-1).

Definition zero_tape : Random.state :=
  {| Random.tape := fun _ => 0; Random.cursor := 0 |}.

(** The double just below 128, and a generator whose steps are all +15. *)
Definition below_128 : Py.float := Py.float_lit (2 ^ 53 - 1) (-46).

Definition up_tape : Random.state :=
  {| Random.tape := fun _ => 30; Random.cursor := 0 |}.


(** The first entry of the catalog. *)
Definition apple : product :=
  {| name := "Apple"; carbs := 25; risk := "Low";
     expl := "Natural sugars, high fiber." |}.

(* ================================================================= *)
(** ** Worked examples *)

Example risk_glucose_200 :
  calculate_risk (PatientData_defaults (Py.float_of_int 200))
  = (70, "High", "Current glucose is elevated. Missed insulin correction?").
Proof. vm_compute. reflexivity. Qed.

Example risk_glucose_100 :
  calculate_risk (PatientData_defaults (Py.float_of_int 100))
  = (10, "Low", "Levels look stable.").
Proof. vm_compute. reflexivity. Qed.

Example risk_glucose_60 :
  calculate_risk (PatientData_defaults (Py.float_of_int 60))
  = (50, "Medium", "Risk of hypoglycemia.").
Proof. vm_compute. reflexivity. Qed.

Example risk_all_contributors :
  calculate_risk all_risks
  = (100, "High",
     "Current glucose is elevated. High carb intake detected. High stress levels can spike glucose. Low activity increases persistence of high glucose. Missed insulin correction?").
Proof. vm_compute. reflexivity. Qed.

(** Values outside 0-10, an infinity and a NaN are scored like any other. *)
Example risk_out_of_range :
  calculate_risk {| glucose := Py.float_of_int 100;
                    insulin_units := Py.nan;
                    carbs_grams := Py.inf;
                    activity_level := Py.float_of_int (-4);
                    stress_level := Py.float_of_int 42;
                    mood := "" |}
  = (55, "Medium",
     "High carb intake detected. High stress levels can spike glucose. Low activity increases persistence of high glucose.").
Proof. vm_compute. reflexivity. Qed.

(** Stress 1000 and activity -40 are scored like stress 8 and activity 2. *)
Example risk_out_of_range_same :
  tests_of out_of_range_request = tests_of in_range_request
  /\ calculate_risk out_of_range_request = calculate_risk in_range_request.
Proof. split; vm_compute; reflexivity. Qed.

Example trend_100_zero_tape :
  generate_trend (Py.float_of_int 100) zero_tape
  = Py.Return ([100; 85; 70; 60; 60; 60; 60; 60; 60; 60; 60; 60; 60; 60],
               drawn 14 zero_tape).
Proof. vm_compute. reflexivity. Qed.

Example trend_nan_raises :
  generate_trend Py.nan zero_tape = Py.Raise Py.ValueError.
Proof. reflexivity. Qed.

Example trend_inf_raises :
  generate_trend Py.inf zero_tape = Py.Raise Py.OverflowError.
Proof. reflexivity. Qed.

(* ================================================================= *)
(** ** Properties of [calculate_risk] *)

Section RiskScoring.

Lemma imin_min (a b : Z) : Py.imin a b = Z.min a b.
Proof. unfold Py.imin. destruct (Z.ltb_spec b a); lia. Qed.

Lemma imax_max (a b : Z) : Py.imax a b = Z.max a b.
Proof.
  unfold Py.imax. rewrite Z.gtb_ltb. destruct (Z.ltb_spec a b); lia.
Qed.

(** The in-place accumulation computes the table's sum and the reasons
    in the table's order. *)
Lemma score_and_reasons_spec (d : PatientData) :
  score_and_reasons d = (spec_sum d, spec_reasons d).
Proof.
  unfold score_and_reasons, spec_sum, spec_reasons.
  destruct (Py.gt (Py.Float (glucose d)) (Py.Int 180));
    destruct (Py.lt (Py.Float (glucose d)) (Py.Int 70));
    destruct (Py.gt (Py.Float (carbs_grams d)) (Py.Int 60));
    destruct (Py.gt (Py.Float (stress_level d)) (Py.Int 7));
    destruct (Py.lt (Py.Float (activity_level d)) (Py.Int 3));
    destruct (Py.eq (Py.Float (insulin_units d)) (Py.Int 0)
              && Py.gt (Py.Float (glucose d)) (Py.Int 150));
    reflexivity.
Qed.

Lemma spec_sum_bounds (d : PatientData) : 10 <= spec_sum d <= 115.
Proof.
  unfold spec_sum.
  destruct (Py.gt (Py.Float (glucose d)) (Py.Int 180));
    destruct (Py.lt (Py.Float (glucose d)) (Py.Int 70));
    destruct (Py.gt (Py.Float (carbs_grams d)) (Py.Int 60));
    destruct (Py.gt (Py.Float (stress_level d)) (Py.Int 7));
    destruct (Py.lt (Py.Float (activity_level d)) (Py.Int 3));
    destruct (Py.eq (Py.Float (insulin_units d)) (Py.Int 0)
              && Py.gt (Py.Float (glucose d)) (Py.Int 150));
    lia.
Qed.

Lemma truthy_explanation (rs : list string) :
  (if Py.truthy rs then Py.join " " rs else "Levels look stable.")
  = match rs with
    | [] => "Levels look stable."
    | _ :: _ => String.concat " " rs
    end.
Proof. destruct rs; reflexivity. Qed.

(** The three components of the result. *)
Lemma calculate_risk_score (d : PatientData) :
  fst (fst (calculate_risk d)) = Z.min (spec_sum d) 100.
Proof.
  unfold calculate_risk. rewrite score_and_reasons_spec. cbn [fst].
  rewrite imin_min, imax_max. pose proof (spec_sum_bounds d). lia.
Qed.

Lemma calculate_risk_label (d : PatientData) :
  snd (fst (calculate_risk d))
  = if fst (fst (calculate_risk d)) <? 30 then "Low"
    else if fst (fst (calculate_risk d)) <? 70 then "Medium"
    else "High".
Proof.
  unfold calculate_risk. destruct (score_and_reasons d). reflexivity.
Qed.

Lemma calculate_risk_explanation (d : PatientData) :
  snd (calculate_risk d) = spec_explanation d.
Proof.
  unfold calculate_risk, spec_explanation.
  rewrite score_and_reasons_spec. cbn [snd].
  rewrite truthy_explanation. destruct (spec_reasons d); reflexivity.
Qed.

(** The result is a function of the seven comparisons. *)
Lemma calculate_risk_tests (d d' : PatientData) :
  tests_of d = tests_of d' -> calculate_risk d = calculate_risk d'.
Proof.
  intros H. unfold tests_of in H.
  injection H as H180 H70 Hc Hs Ha Hi H150.
  unfold calculate_risk, score_and_reasons.
  rewrite H180, H70, Hc, Hs, Ha, Hi, H150. reflexivity.
Qed.

End RiskScoring.


(* ================================================================= *)
(** ** Python numbers between two ints *)

Section PyNumbers.

Lemma lt_float_int (f : Py.float) (z : Z) :
  Py.lt (Py.Float f) (Py.Int z) = true <-> Py.float_compare_int f z = Some Lt.
Proof.
  unfold Py.lt, Py.compare.
  destruct (Py.float_compare_int f z) as [[ | | ]|]; split; congruence.
Qed.

Lemma gt_float_int (f : Py.float) (z : Z) :
  Py.gt (Py.Float f) (Py.Int z) = true <-> Py.float_compare_int f z = Some Gt.
Proof.
  unfold Py.gt, Py.compare.
  destruct (Py.float_compare_int f z) as [[ | | ]|]; split; congruence.
Qed.

(** A number strictly between a non-negative [lo] and [hi] converts to an
    int of [[lo, hi)], and truncation is the floor there. *)
Lemma int_between (x : Py.num) (lo hi : Z) :
  0 <= lo ->
  Py.gt x (Py.Int lo) = true ->
  Py.lt x (Py.Int hi) = true ->
  exists v, Py.int x = Py.Return v /\ Py.floor x = Py.Return v /\ lo <= v < hi.
Proof.
  intros Hlo Hgt Hlt. destruct x as [z | f].
  - unfold Py.gt, Py.lt, Py.compare in Hgt, Hlt.
    exists z. repeat split.
    + destruct (Z.compare_spec z lo); try discriminate; lia.
    + destruct (Z.compare_spec z hi); try discriminate; lia.
  - apply gt_float_int in Hgt. apply lt_float_int in Hlt.
    destruct f as [s | s | | s m e]; cbn [Py.float_compare_int] in Hgt, Hlt.
    + destruct lo; try discriminate; lia.
    + destruct s; discriminate.
    + discriminate.
    + cbn [Py.int Py.floor].
      destruct (0 <=? e) eqn:He.
      * injection Hgt as Hgt. injection Hlt as Hlt.
        rewrite Z.compare_gt_iff in Hgt. rewrite Z.compare_lt_iff in Hlt.
        exists (Py.signed s m * 2 ^ e). repeat split; lia.
      * injection Hgt as Hgt. injection Hlt as Hlt.
        rewrite Z.compare_gt_iff in Hgt. rewrite Z.compare_lt_iff in Hlt.
        apply Z.leb_gt in He.
        assert (Hp : 0 < 2 ^ (- e)) by (apply Z.pow_pos_nonneg; lia).
        assert (Hn : 0 <= Py.signed s m) by nia.
        exists (Py.signed s m / 2 ^ (- e)). repeat split.
        -- rewrite Z.quot_div_nonneg by lia. reflexivity.
        -- apply Z.div_le_lower_bound; lia.
        -- apply Z.div_lt_upper_bound; lia.
Qed.

Lemma clamp_cases (x : Py.num) :
  clamp x = Py.Int 60
  \/ clamp x = Py.Int 350
  \/ (clamp x = x /\ Py.gt x (Py.Int 60) = true /\ Py.lt x (Py.Int 350) = true).
Proof.
  unfold clamp, Py.min, Py.max.
  destruct (Py.lt x (Py.Int 350)) eqn:Hlt.
  - destruct (Py.gt x (Py.Int 60)) eqn:Hgt; auto.
  - right; left. reflexivity.
Qed.

(** Whatever it is given (a NaN and the infinities included), the clamp
    returns a number of [[60, 350]]. *)
Lemma clamp_in_walk_range (x : Py.num) : in_walk_range (clamp x).
Proof.
  destruct (clamp_cases x) as [H | [H | (H & Hgt & Hlt)]]; rewrite H.
  - exists 60. cbn. repeat split; lia.
  - exists 350. cbn. repeat split; lia.
  - destruct (int_between x 60 350) as (v & Hi & Hf & Hv); auto; try lia.
    exists v. repeat split; auto; lia.
Qed.

Lemma int_finite (f : Py.float) :
  Py.is_finite f = true -> exists v, Py.int (Py.Float f) = Py.Return v.
Proof.
  destruct f as [s | s | | s m e]; cbn; try discriminate; intros _.
  - eauto.
  - destruct (0 <=? e); eauto.
Qed.

(** [int] is the floor on a float that is not negative. *)
Lemma int_floor_nonneg (f : Py.float) (v : Z) :
  Py.lt (Py.Float f) (Py.Int 0) = false ->
  Py.int (Py.Float f) = Py.Return v ->
  Py.floor (Py.Float f) = Py.Return v.
Proof.
  intros Hlt Hi. destruct f as [s | s | | s m e]; cbn in *; try discriminate; auto.
  destruct (0 <=? e) eqn:He; auto.
  unfold Py.lt, Py.compare, Py.float_compare_int in Hlt. rewrite He in Hlt.
  apply Z.leb_gt in He.
  assert (Hp : 0 < 2 ^ (- e)) by (apply Z.pow_pos_nonneg; lia).
  destruct s; cbn in Hlt; try discriminate.
  rewrite <- Hi. cbn [Py.signed].
  rewrite Z.quot_div_nonneg by lia. reflexivity.
Qed.

(** Floats that are [==] compare alike with every int. *)
Lemma float_eq_compare_int (f g : Py.float) (z : Z) :
  Py.eq (Py.Float f) (Py.Float g) = true ->
  Py.float_compare_int f z = Py.float_compare_int g z.
Proof.
  unfold Py.eq, Py.compare. intros H.
  destruct f as [s | s | | s m e], g as [s' | s' | | s' m' e'];
    cbn in H; try discriminate H; try reflexivity;
    try (destruct s; discriminate H); try (destruct s'; discriminate H).
  - destruct s, s'; try discriminate H; reflexivity.
  - assert (Hs : s = s' /\ (e ?= e') = Eq /\ Pos.compare_cont Eq m m' = Eq).
    { destruct s, s'; try discriminate H;
        destruct (e ?= e'); try discriminate H;
        destruct (Pos.compare_cont Eq m m'); try discriminate H; auto. }
    destruct Hs as (-> & He & Hm).
    apply Z.compare_eq in He. apply Pos.compare_eq in Hm. subst. reflexivity.
Qed.

End PyNumbers.

(* ================================================================= *)
(** ** Draws from the generator *)

Section RandomDraws.

Lemma randint_value (a b : Z) (r : Random.state) :
  a <= b ->
  Random.randint a b r
  = Py.Return (a + Random.tape r (Random.cursor r) mod (b + 1 - a),
               Random.advance r).
Proof.
  intros Hab. unfold Random.randint.
  destruct (Z.ltb_spec b a); [lia | reflexivity].
Qed.

(** [randint(a, b)] returns an int of [[a, b]] and consumes one draw. *)
Lemma randint_range (a b : Z) (r : Random.state) :
  a <= b ->
  exists v, Random.randint a b r = Py.Return (v, Random.advance r)
            /\ a <= v <= b.
Proof.
  intros Hab. rewrite randint_value by assumption.
  eexists; split; [reflexivity|].
  pose proof (Z.mod_pos_bound (Random.tape r (Random.cursor r)) (b + 1 - a)).
  lia.
Qed.

(** [choice] returns an element of a non-empty sequence and consumes one
    draw. *)
Lemma choice_In {A : Type} (x0 : A) (seq : list A) (r : Random.state) :
  exists x, Random.choice (x0 :: seq) r = Py.Return (x, Random.advance r)
            /\ In x (x0 :: seq).
Proof.
  unfold Random.choice, Random.bind, Random.randbelow.
  set (l := x0 :: seq).
  set (i := Random.tape r (Random.cursor r) mod Z.of_nat (List.length l)).
  assert (Hi : 0 <= i < Z.of_nat (List.length l)).
  { apply Z.mod_pos_bound. subst l. cbn [List.length]. lia. }
  destruct (nth_error l (Z.to_nat i)) as [x|] eqn:Hx.
  - exists x. split; [reflexivity|]. eapply nth_error_In; eassumption.
  - apply nth_error_None in Hx. lia.
Qed.

Lemma drawn_0 (r : Random.state) : drawn 0 r = r.
Proof. destruct r as [t c]. unfold drawn. cbn. rewrite Nat.add_0_r. reflexivity. Qed.

Lemma advance_drawn (k : nat) (r : Random.state) :
  Random.advance (drawn k r) = drawn (S k) r.
Proof. unfold Random.advance, drawn. cbn. rewrite Nat.add_succ_r. reflexivity. Qed.

Lemma advance_eq_drawn (r : Random.state) : Random.advance r = drawn 1 r.
Proof. unfold Random.advance, drawn. rewrite Nat.add_1_r. reflexivity. Qed.

Lemma spec_step_range (r : Random.state) (i : nat) : -15 <= spec_step r i <= 15.
Proof.
  unfold spec_step.
  pose proof (Z.mod_pos_bound (Random.tape r (Random.cursor r + i)%nat) 31).
  lia.
Qed.

(** The [k]-th call of [randint(-15, 15)] returns the [k]-th step. *)
Lemma randint_step (k : nat) (r : Random.state) :
  Random.randint (-15) 15 (drawn k r) = Py.Return (spec_step r k, drawn (S k) r).
Proof.
  rewrite randint_value by lia. rewrite advance_drawn. reflexivity.
Qed.

(** [randint(-15, 15)] as a function of the result of [_randbelow(31)]. *)
Lemma randint_step_of_draw (r : Random.state) :
  Random.randint (-15) 15 r
  = Py.Return (step_of_draw (Random.tape r (Random.cursor r)), Random.advance r).
Proof. rewrite randint_value by lia. reflexivity. Qed.

(** Each step of [[-15, 15]] is the image of exactly one of the 31
    results of [_randbelow(31)]: the step is uniform when they are. *)
Lemma step_of_draw_uniform (v : Z) :
  -15 <= v <= 15 ->
  count_occ Z.eq_dec (map step_of_draw randbelow_31) v = 1%nat.
Proof.
  intros Hv.
  assert (Hall : forallb
            (fun w => Nat.eqb (count_occ Z.eq_dec (map step_of_draw randbelow_31) w) 1)
            (map (fun k => -15 + Z.of_nat k) (seq 0 31)) = true)
    by (vm_compute; reflexivity).
  rewrite forallb_forall in Hall.
  apply Nat.eqb_eq. apply Hall.
  apply in_map_iff. exists (Z.to_nat (v + 15)). split; [lia|].
  apply in_seq. lia.
Qed.

End RandomDraws.

(* ================================================================= *)
(** ** The random walk of [generate_trend] *)

Section TrendWalk.

Variable start : Py.num.
Variable r : Random.state.

(** After the first iteration [current] always lies in the clamp's range. *)
Lemma spec_current_in_walk_range (i : nat) :
  in_walk_range (spec_current start r (S i)).
Proof. cbn [spec_current]. apply clamp_in_walk_range. Qed.

Lemma int_or_0_returns (x : Py.num) (v : Z) :
  Py.int x = Py.Return v -> int_or_0 x = v.
Proof. unfold int_or_0. intros ->. reflexivity. Qed.

Hypothesis start_int : exists v, Py.int start = Py.Return v.

Lemma spec_current_int (i : nat) :
  Py.int (spec_current start r i) = Py.Return (int_or_0 (spec_current start r i)).
Proof.
  destruct i as [|i].
  - destruct start_int as [v Hv]. cbn [spec_current].
    rewrite (int_or_0_returns _ _ Hv). exact Hv.
  - destruct (spec_current_in_walk_range i) as (v & Hv & _).
    rewrite (int_or_0_returns _ _ Hv). exact Hv.
Qed.

(** The loop, entered at iteration [k] with [n] iterations left, appends
    the [n] next elements of the walk and consumes [n] draws. *)
Lemma generate_trend_loop_spec (n : nat) :
  forall (k : nat) (series : list Z),
    generate_trend_loop n series (spec_current start r k) (drawn k r)
    = Py.Return
        (series ++ map (fun i => int_or_0 (spec_current start r i)) (seq k n),
         drawn (k + n) r).
Proof.
  induction n as [|n IH]; intros k series.
  - cbn. rewrite app_nil_r, Nat.add_0_r. reflexivity.
  - cbn [generate_trend_loop]. unfold Random.bind at 1, Random.lift.
    rewrite (spec_current_int k).
    unfold Random.bind at 1. rewrite randint_step.
    change (Py.max (Py.Int 60)
              (Py.min (Py.Int 350)
                 (Py.add (spec_current start r k) (Py.Int (spec_step r k)))))
      with (spec_current start r (S k)).
    rewrite IH. cbn [seq map]. rewrite <- app_assoc. cbn [app].
    rewrite Nat.add_succ_r. reflexivity.
Qed.

End TrendWalk.

Lemma nth_map_seq (f : nat -> Z) (n i : nat) :
  (i < n)%nat -> nth i (map f (seq 0 n)) 0 = f i.
Proof.
  intros Hi.
  rewrite (nth_indep _ 0 (f 0%nat)) by (rewrite length_map, length_seq; exact Hi).
  rewrite map_nth. rewrite seq_nth by exact Hi. reflexivity.
Qed.

(** On a finite start value [generate_trend] returns the fourteen first
    truncated values of the walk and leaves the generator fourteen draws
    further. *)
Lemma generate_trend_finite (f : Py.float) (r : Random.state) :
  Py.is_finite f = true ->
  generate_trend f r
  = Py.Return
      (map (fun i => int_or_0 (spec_current (Py.Float f) r i)) (seq 0 14),
       drawn 14 r).
Proof.
  intros Hf. unfold generate_trend.
  rewrite <- (drawn_0 r) at 1.
  change (Py.Float f) with (spec_current (Py.Float f) r 0) at 1.
  rewrite (generate_trend_loop_spec (Py.Float f) r (int_finite f Hf) 14 0 []).
  reflexivity.
Qed.

(** A start value that is not finite makes the first [int] raise. *)
Lemma generate_trend_not_finite (f : Py.float) (r : Random.state) :
  Py.is_finite f = false ->
  exists e, generate_trend f r = Py.Raise e.
Proof.
  intros Hf. unfold generate_trend. cbn [generate_trend_loop].
  unfold Random.bind at 1, Random.lift.
  destruct f as [s | s | | s m e]; try discriminate Hf; cbn; eauto.
Qed.

(* ================================================================= *)
(** ** The scoring rule *)

Section Scoring.

Lemma risk_score_of_min (d : PatientData) :
  risk_score_of d = Z.min (spec_sum d) 100.
Proof. apply calculate_risk_score. Qed.

Lemma risk_score_of_bounds (d : PatientData) : 10 <= risk_score_of d <= 100.
Proof.
  rewrite risk_score_of_min. pose proof (spec_sum_bounds d). lia.
Qed.

Lemma risk_label_of_cases (d : PatientData) :
  (risk_score_of d < 30 /\ risk_label_of d = "Low")
  \/ (30 <= risk_score_of d < 70 /\ risk_label_of d = "Medium")
  \/ (70 <= risk_score_of d /\ risk_label_of d = "High").
Proof.
  unfold risk_label_of. rewrite calculate_risk_label.
  fold (risk_score_of d).
  destruct (Z.ltb_spec (risk_score_of d) 30); [left; auto|].
  destruct (Z.ltb_spec (risk_score_of d) 70); [right; left; auto|].
  right; right; auto.
Qed.

(** Outside the NaN, the third glucose branch is the interval [[70, 180]]. *)
Lemma glucose_otherwise (f : Py.float) :
  Py.gt (Py.Float f) (Py.Int 180) = false
  /\ Py.lt (Py.Float f) (Py.Int 70) = false
  <-> (Py.le (Py.Int 70) (Py.Float f) = true
       /\ Py.le (Py.Float f) (Py.Int 180) = true)
      \/ f = Py.nan.
Proof.
  unfold Py.gt, Py.lt, Py.le, Py.compare, Py.opt_CompOpp, Py.nan.
  destruct f as [s | s | | s m e]; cbn [Py.float_compare_int].
  - cbn. intuition congruence.
  - destruct s; cbn; intuition congruence.
  - intuition congruence.
  - destruct (0 <=? e).
    + destruct (Py.signed s m * 2 ^ e ?= 180), (Py.signed s m * 2 ^ e ?= 70);
        cbn; intuition congruence.
    + destruct (Py.signed s m ?= 180 * 2 ^ (- e)),
        (Py.signed s m ?= 70 * 2 ^ (- e)); cbn; intuition congruence.
Qed.

End Scoring.

(* ================================================================= *)
(** ** Results on [calculate_risk] *)

(** C1, as stated, fails: with every contributor triggered the sum of the
    table is 115, and the score returned is 100, not the sum. *)
Lemma calculate_risk_score_is_not_the_sum :
  spec_sum all_risks = 115
  /\ risk_score_of all_risks = 100
  /\ risk_score_of all_risks <> spec_sum all_risks.
Proof.
  assert (Hs : spec_sum all_risks = 115) by (vm_compute; reflexivity).
  assert (Hr : risk_score_of all_risks = 100) by (vm_compute; reflexivity).
  repeat split; try assumption. rewrite Hs, Hr. discriminate.
Qed.

(** C1, amended: for every request the locals [score] and [reasons]
    accumulated by [calculate_risk] are the sum of the scoring table
    (+60 if glucose > 180, +50 if glucose < 70, +10 otherwise; +20 if
    carbs_grams > 60; +15 if stress_level > 7; +10 if activity_level < 3;
    +10 if insulin_units == 0 and glucose > 150) and the reasons in the
    table's order; the score returned is that sum capped at 100, and the
    explanation is the reasons joined by a space, or "Levels look stable."
    when there is none. *)
Theorem calculate_risk_additive_capped (d : PatientData) :
  score_and_reasons d = (spec_sum d, spec_reasons d)
  /\ risk_score_of d = Z.min (spec_sum d) 100
  /\ risk_explanation_of d = spec_explanation d.
Proof.
  split; [apply score_and_reasons_spec|].
  split; [apply risk_score_of_min|].
  apply calculate_risk_explanation.
Qed.

(** C2: the score returned by [calculate_risk] lies in [[0, 100]], and the
    label is decided by the score alone: "Low" below 30, "Medium" from 30
    to 69, "High" from 70 on. *)
Theorem calculate_risk_score_and_label (d : PatientData) :
  0 <= risk_score_of d <= 100
  /\ (risk_score_of d < 30 -> risk_label_of d = "Low")
  /\ (30 <= risk_score_of d < 70 -> risk_label_of d = "Medium")
  /\ (70 <= risk_score_of d -> risk_label_of d = "High")
  /\ (forall d', risk_score_of d' = risk_score_of d ->
                 risk_label_of d' = risk_label_of d).
Proof.
  pose proof (risk_score_of_bounds d) as Hb.
  split; [lia|].
  destruct (risk_label_of_cases d) as [[Hs Hl] | [[Hs Hl] | [Hs Hl]]];
    (repeat split; [intros; try assumption; lia .. | ]);
    intros d' Hd';
    destruct (risk_label_of_cases d') as [[Hs' Hl'] | [[Hs' Hl'] | [Hs' Hl']]];
    rewrite Hl, Hl'; try reflexivity; lia.
Qed.

(** C6: when glucose > 180 the score is at least 60 and the label is
    "Medium" or "High". *)
Theorem calculate_risk_glucose_above_180 (d : PatientData) :
  Py.gt (Py.Float (glucose d)) (Py.Int 180) = true ->
  60 <= risk_score_of d
  /\ (risk_label_of d = "Medium" \/ risk_label_of d = "High").
Proof.
  intros Hg.
  assert (Hs : 60 <= risk_score_of d).
  { rewrite risk_score_of_min. unfold spec_sum. rewrite Hg.
    destruct (Py.gt (Py.Float (carbs_grams d)) (Py.Int 60));
      destruct (Py.gt (Py.Float (stress_level d)) (Py.Int 7));
      destruct (Py.lt (Py.Float (activity_level d)) (Py.Int 3));
      destruct (Py.eq (Py.Float (insulin_units d)) (Py.Int 0)
                && Py.gt (Py.Float (glucose d)) (Py.Int 150));
      lia. }
  split; [exact Hs|].
  destruct (risk_label_of_cases d) as [[H _] | [[_ Hl] | [_ Hl]]]; auto; lia.
Qed.

Lemma calculate_risk_glucose_above_180_witness :
  Py.gt (Py.Float (glucose glucose_200)) (Py.Int 180) = true
  /\ (60 <= risk_score_of glucose_200
      /\ (risk_label_of glucose_200 = "Medium"
          \/ risk_label_of glucose_200 = "High")).
Proof.
  split; [reflexivity|].
  apply (calculate_risk_glucose_above_180 glucose_200). reflexivity.
Defined.

(** C7: [calculate_risk] returns a result on every request, whatever the
    floats are (out of the 0-10 range, infinite or NaN), and the result
    depends on the request only through the outcomes of the threshold
    comparisons. *)
Theorem calculate_risk_total (d : PatientData) :
  exists score label explanation,
    calculate_risk d = (score, label, explanation)
    /\ forall d', tests_of d' = tests_of d ->
                  calculate_risk d' = (score, label, explanation).
Proof.
  destruct (calculate_risk d) as [[score label] explanation] eqn:Hd.
  exists score, label, explanation. split; [reflexivity|].
  intros d' Ht. rewrite <- Hd. apply calculate_risk_tests. exact Ht.
Qed.

(** C8: two requests that differ in [mood] only get the same result. *)
Theorem calculate_risk_ignores_mood
  (g i c a s : Py.float) (mood1 mood2 : string) :
  calculate_risk {| glucose := g; insulin_units := i; carbs_grams := c;
                    activity_level := a; stress_level := s; mood := mood1 |}
  = calculate_risk {| glucose := g; insulin_units := i; carbs_grams := c;
                      activity_level := a; stress_level := s; mood := mood2 |}.
Proof. reflexivity. Qed.

(** C9: two evaluations of [calculate_risk] on equal requests (the same
    request, or two requests that Python's [==] holds equal) return the
    same score, label and explanation. *)
Theorem calculate_risk_deterministic (d1 d2 : PatientData) :
  d1 = d2 \/ PatientData_eq d1 d2 = true ->
  calculate_risk d1 = calculate_risk d2.
Proof.
  intros [-> | Heq]; [reflexivity|].
  unfold PatientData_eq in Heq.
  repeat (apply andb_true_iff in Heq; destruct Heq as [Heq ?]).
  apply calculate_risk_tests. unfold tests_of, Py.gt, Py.lt, Py.eq, Py.compare.
  rewrite !(float_eq_compare_int (glucose d1) (glucose d2)) by assumption.
  rewrite !(float_eq_compare_int (insulin_units d1) (insulin_units d2)) by assumption.
  rewrite !(float_eq_compare_int (carbs_grams d1) (carbs_grams d2)) by assumption.
  rewrite !(float_eq_compare_int (activity_level d1) (activity_level d2)) by assumption.
  rewrite !(float_eq_compare_int (stress_level d1) (stress_level d2)) by assumption.
  reflexivity.
Qed.

Lemma calculate_risk_deterministic_witness :
  (insulin_plus_zero = insulin_minus_zero
   \/ PatientData_eq insulin_plus_zero insulin_minus_zero = true)
  /\ calculate_risk insulin_plus_zero = calculate_risk insulin_minus_zero.
Proof.
  split; [right; reflexivity|].
  apply (calculate_risk_deterministic insulin_plus_zero insulin_minus_zero).
  right. reflexivity.
Defined.

(** C10: the sum accumulated by [calculate_risk] is at least 10, so the
    lower clamp [max(score, 0)] leaves it unchanged; the score returned
    is at least 10, and the label is "Low" exactly when the score lies
    in [[10, 29]]. *)
Theorem calculate_risk_score_at_least_10 (d : PatientData) :
  10 <= fst (score_and_reasons d)
  /\ Py.imax (fst (score_and_reasons d)) 0 = fst (score_and_reasons d)
  /\ 10 <= risk_score_of d
  /\ (risk_label_of d = "Low" <-> 10 <= risk_score_of d <= 29).
Proof.
  rewrite score_and_reasons_spec. cbn [fst].
  pose proof (spec_sum_bounds d) as Hb.
  pose proof (risk_score_of_bounds d) as Hr.
  split; [lia|]. split; [rewrite imax_max; lia|]. split; [lia|].
  destruct (risk_label_of_cases d) as [[Hs Hl] | [[Hs Hl] | [Hs Hl]]];
    rewrite Hl; split; intros H; try discriminate H; try reflexivity; lia.
Qed.

(* ================================================================= *)
(** ** Results on [generate_trend] *)

(** C3, as stated, fails twice: a NaN start value makes the first [int]
    raise, so that no series is returned; and on the start value -0.5 the
    first element is [int(-0.5) = 0], not [floor(-0.5) = -1]. *)
Lemma generate_trend_floor_counterexample :
  ~ trend_floor_spec Py.nan zero_tape
  /\ ~ trend_floor_spec minus_half zero_tape.
Proof.
  split.
  - intros (series & r' & H & _). discriminate H.
  - intros (series & r' & H & _ & Hfloor).
    vm_compute in H. injection H as Hseries _.
    specialize (Hfloor 0%nat ltac:(lia)). rewrite <- Hseries in Hfloor.
    vm_compute in Hfloor. discriminate Hfloor.
Qed.

(** C3, amended: for every finite start value and every sequence of
    draws, [generate_trend] returns a series of exactly 14 elements after
    exactly 14 draws; element [i] is [int(current)] at iteration [i],
    where [current] starts at the start value and becomes, at each
    iteration, its previous value plus a uniformly drawn step of
    [[-15, 15]], clamped.  [int] truncates toward zero: it is the floor of
    [current] in every iteration after the first, where [current] lies in
    [[60, 350]], and in the first one when the start value is not
    negative.  The step is uniform in that [randint(-15, 15)] is
    [-15 + _randbelow(31)], iteration [i] reading the [i]-th next draw,
    and each of the 31 steps is the image of exactly one of the 31
    results of [_randbelow(31)].  On a start value that is a NaN the first
    [int(current)] raises [ValueError], on an infinite one
    [OverflowError], and no series is returned. *)
Theorem generate_trend_walk (start : Py.float) (r : Random.state) :
  (Py.is_finite start = true ->
   exists series,
     generate_trend start r = Py.Return (series, drawn 14 r)
     /\ List.length series = 14%nat
     /\ (forall i, (i < 14)%nat ->
           Py.int (spec_current (Py.Float start) r i)
           = Py.Return (nth i series 0))
     /\ (forall i, (1 <= i < 14)%nat ->
           Py.floor (spec_current (Py.Float start) r i)
           = Py.Return (nth i series 0)
           /\ 60 <= nth i series 0 <= 350)
     /\ (Py.lt (Py.Float start) (Py.Int 0) = false ->
         Py.floor (Py.Float start) = Py.Return (nth 0 series 0)))
  /\ (forall i, -15 <= spec_step r i <= 15)
  /\ (forall r0,
        Random.randint (-15) 15 r0
        = Py.Return (step_of_draw (Random.tape r0 (Random.cursor r0)),
                     Random.advance r0))
  /\ (forall i,
        spec_step r i = step_of_draw (Random.tape r (Random.cursor r + i)%nat))
  /\ (forall v, -15 <= v <= 15 ->
        count_occ Z.eq_dec (map step_of_draw randbelow_31) v = 1%nat)
  /\ (start = Py.nan -> generate_trend start r = Py.Raise Py.ValueError)
  /\ (forall s, start = S754_infinity s ->
        generate_trend start r = Py.Raise Py.OverflowError).
Proof.
  split; [|split; [|split; [|split; [|split; [|split]]]]].
  - intros Hf. eexists. split; [apply generate_trend_finite; exact Hf|].
    pose proof (int_finite start Hf) as Hstart.
    split; [rewrite length_map, length_seq; reflexivity|].
    split; [|split].
    + intros i Hi. rewrite nth_map_seq by exact Hi.
      apply spec_current_int. exact Hstart.
    + intros i [Hi1 Hi]. rewrite nth_map_seq by exact Hi.
      destruct i as [|i]; [lia|].
      destruct (spec_current_in_walk_range (Py.Float start) r i)
        as (v & Hv & Hfl & Hr).
      rewrite (int_or_0_returns _ _ Hv). split; assumption.
    + intros Hneg. rewrite nth_map_seq by lia. cbn [spec_current].
      apply int_floor_nonneg; [exact Hneg|].
      apply (spec_current_int (Py.Float start) r Hstart 0).
  - apply spec_step_range.
  - apply randint_step_of_draw.
  - intros i. reflexivity.
  - apply step_of_draw_uniform.
  - intros ->. reflexivity.
  - intros s ->. reflexivity.
Qed.

Lemma generate_trend_walk_witness :
  Py.is_finite (Py.float_of_int 100) = true
  /\ exists series,
       generate_trend (Py.float_of_int 100) zero_tape
       = Py.Return (series, drawn 14 zero_tape)
       /\ List.length series = 14%nat
       /\ (forall i, (i < 14)%nat ->
             Py.int (spec_current (Py.Float (Py.float_of_int 100)) zero_tape i)
             = Py.Return (nth i series 0))
       /\ (forall i, (1 <= i < 14)%nat ->
             Py.floor (spec_current (Py.Float (Py.float_of_int 100)) zero_tape i)
             = Py.Return (nth i series 0)
             /\ 60 <= nth i series 0 <= 350)
       /\ (Py.lt (Py.Float (Py.float_of_int 100)) (Py.Int 0) = false ->
           Py.floor (Py.Float (Py.float_of_int 100))
           = Py.Return (nth 0 series 0)).
Proof.
  split; [reflexivity|].
  apply (proj1 (generate_trend_walk (Py.float_of_int 100) zero_tape)).
  reflexivity.
Defined.

(** C4: on the start value 100 and for every sequence of draws,
    [generate_trend] returns exactly 14 integers, each within
    [[60, 350]], the first of which is 100. *)
Theorem generate_trend_100 (r : Random.state) :
  exists series,
    generate_trend (Py.float_of_int 100) r = Py.Return (series, drawn 14 r)
    /\ List.length series = 14%nat
    /\ Forall (fun v => 60 <= v <= 350) series
    /\ nth_error series 0 = Some 100.
Proof.
  eexists. split; [apply generate_trend_finite; reflexivity|].
  split; [rewrite length_map, length_seq; reflexivity|].
  split; [|reflexivity].
  apply Forall_forall. intros v Hv.
  apply in_map_iff in Hv. destruct Hv as (i & <- & _).
  destruct i as [|i].
  - vm_compute. split; discriminate.
  - destruct (spec_current_in_walk_range (Py.Float (Py.float_of_int 100)) r i)
      as (v & Hv & _ & Hr).
    rewrite (int_or_0_returns _ _ Hv). exact Hr.
Qed.

(* ================================================================= *)
(** ** Results on [scan_product] *)

Section Scan.

Lemma products_cases (p : product) :
  In p products ->
  (name p = "Apple" /\ risk p = "Low")
  \/ (name p = "Soda Can" /\ risk p = "High")
  \/ (name p = "Pizza Slice" /\ risk p = "Medium")
  \/ (name p = "Salad" /\ risk p = "Low")
  \/ (name p = "Donut" /\ risk p = "High").
Proof.
  unfold products. cbn [In].
  intros [<- | [<- | [<- | [<- | [<- | []]]]]]; cbn; tauto.
Qed.

End Scan.

(** C5: for every upload and every sequence of draws, [scan_product]
    returns a response whose product name is one of the five names of the
    catalog and whose score lies in the range of its label: [[70, 95]] for
    "High", [[30, 69]] for "Medium", [[5, 29]] for "Low". *)
Theorem scan_product_name_and_bucket (file : string) (r : Random.state) :
  exists resp,
    scan_product file r = Py.Return (resp, drawn 2 r)
    /\ In (product_name resp) product_names
    /\ in_bucket (scan_risk_label resp) (scan_risk_score resp).
Proof.
  unfold scan_product, Random.bind at 1.
  destruct (choice_In (A := product)
              {| name := "Apple"; carbs := 25; risk := "Low";
                 expl := "Natural sugars, high fiber." |}
              (tl products) r) as (p & Hp & Hin).
  change (_ :: tl products) with products in Hp, Hin.
  rewrite Hp. unfold Random.bind at 1.
  assert (Hadv : forall k, Random.advance (drawn k r) = drawn (S k) r)
    by (intros; apply advance_drawn).
  rewrite advance_eq_drawn.
  unfold in_bucket, product_names.
  destruct (products_cases p Hin)
    as [[Hn Hr] | [[Hn Hr] | [[Hn Hr] | [[Hn Hr] | [Hn Hr]]]]];
    rewrite Hr; cbn [String.eqb Ascii.eqb Bool.eqb];
    match goal with
    | |- context [Random.randint ?a ?b ?s] =>
        destruct (randint_range a b s ltac:(lia)) as (v & Hv & Hrange);
        rewrite Hv, Hadv
    end;
    eexists; (split; [reflexivity|]); cbn [product_name scan_risk_label
      scan_risk_score]; rewrite Hn; cbn [In];
    (split; [tauto|]); intuition lia.
Qed.

(* ================================================================= *)
(** ** Glucose bands *)

Section GlucoseBands.

(** A float above an int is above every smaller int. *)
Lemma gt_int_mono (f : Py.float) (a b : Z) :
  b <= a ->
  Py.gt (Py.Float f) (Py.Int a) = true ->
  Py.gt (Py.Float f) (Py.Int b) = true.
Proof.
  intros Hab Ha. apply gt_float_int in Ha. apply gt_float_int.
  destruct f as [s | s | | s m e]; cbn [Py.float_compare_int] in *;
    try exact Ha; try discriminate Ha.
  - destruct a; try discriminate Ha. destruct b; try lia. reflexivity.
  - destruct (0 <=? e) eqn:He; injection Ha as Ha;
      rewrite Z.compare_gt_iff in Ha; f_equal; apply Z.compare_gt_iff.
    + lia.
    + apply Z.leb_gt in He.
      assert (Hp : 0 < 2 ^ (- e)) by (apply Z.pow_pos_nonneg; lia).
      nia.
Qed.

(** A float below an int is not above a greater int. *)
Lemma lt_int_not_gt (f : Py.float) (a b : Z) :
  a <= b ->
  Py.lt (Py.Float f) (Py.Int a) = true ->
  Py.gt (Py.Float f) (Py.Int b) = false.
Proof.
  intros Hab Ha. apply lt_float_int in Ha.
  destruct (Py.gt (Py.Float f) (Py.Int b)) eqn:Hb; [|reflexivity].
  apply gt_float_int in Hb. exfalso.
  destruct f as [s | s | | s m e]; cbn [Py.float_compare_int] in *;
    try discriminate Ha.
  - destruct a; try discriminate Ha. destruct b; try discriminate Hb. lia.
  - destruct s; discriminate.
  - destruct (0 <=? e) eqn:He; injection Ha as Ha; injection Hb as Hb;
      rewrite Z.compare_lt_iff in Ha; rewrite Z.compare_gt_iff in Hb.
    + lia.
    + apply Z.leb_gt in He.
      assert (Hp : 0 < 2 ^ (- e)) by (apply Z.pow_pos_nonneg; lia).
      nia.
Qed.

Lemma risk_label_of_score (d : PatientData) :
  risk_label_of d = label_of_score (risk_score_of d).
Proof. unfold risk_label_of. rewrite calculate_risk_label. reflexivity. Qed.

End GlucoseBands.

(* ================================================================= *)
(** ** Further results on [calculate_risk] *)

(** Splits on the outcomes of the seven comparisons of [calculate_risk]
    and discards the combinations that no glucose value produces. *)
Ltac risk_cases d :=
  destruct (Py.gt (Py.Float (glucose d)) (Py.Int 180)) eqn:H180;
  destruct (Py.lt (Py.Float (glucose d)) (Py.Int 70)) eqn:H70;
  destruct (Py.gt (Py.Float (glucose d)) (Py.Int 150)) eqn:H150;
  try (rewrite (gt_int_mono _ 180 150 ltac:(lia) H180) in H150; discriminate H150);
  try (rewrite (lt_int_not_gt _ 70 150 ltac:(lia) H70) in H150; discriminate H150);
  try (rewrite (lt_int_not_gt _ 70 180 ltac:(lia) H70) in H180; discriminate H180);
  destruct (Py.gt (Py.Float (carbs_grams d)) (Py.Int 60)) eqn:Htc;
  destruct (Py.gt (Py.Float (stress_level d)) (Py.Int 7)) eqn:Hts;
  destruct (Py.lt (Py.Float (activity_level d)) (Py.Int 3)) eqn:Hta;
  destruct (Py.eq (Py.Float (insulin_units d)) (Py.Int 0)) eqn:Hti.

(** X1: the score is always a multiple of 5. *)
Theorem calculate_risk_score_multiple_of_5 (d : PatientData) :
  risk_score_of d mod 5 = 0.
Proof.
  rewrite risk_score_of_min. unfold spec_sum.
  risk_cases d; reflexivity.
Qed.

(** X2: the explanation is "Levels look stable." exactly when the score
    is 10, that is when glucose takes the third branch and no contributor
    triggers. *)
Theorem calculate_risk_stable_iff_score_10 (d : PatientData) :
  risk_explanation_of d = "Levels look stable." <-> risk_score_of d = 10.
Proof.
  unfold risk_explanation_of. rewrite calculate_risk_explanation.
  rewrite risk_score_of_min. unfold spec_explanation, spec_reasons, spec_sum.
  risk_cases d; cbn; split; intros H;
    first [reflexivity | discriminate H].
Qed.

(** X3: a request whose glucose is neither above 180 nor below 70 scores
    at most 65 and is never labelled "High". *)
Theorem calculate_risk_normal_glucose (d : PatientData) :
  Py.gt (Py.Float (glucose d)) (Py.Int 180) = false ->
  Py.lt (Py.Float (glucose d)) (Py.Int 70) = false ->
  risk_score_of d <= 65 /\ risk_label_of d <> "High".
Proof.
  intros Hhi Hlo.
  assert (Hs : risk_score_of d <= 65).
  { rewrite risk_score_of_min. unfold spec_sum. rewrite Hhi, Hlo.
    risk_cases d; cbn; lia. }
  split; [exact Hs|].
  rewrite risk_label_of_score. unfold label_of_score.
  destruct (Z.ltb_spec (risk_score_of d) 30); [discriminate|].
  destruct (Z.ltb_spec (risk_score_of d) 70); [discriminate|lia].
Qed.

Lemma calculate_risk_normal_glucose_witness :
  Py.gt (Py.Float (glucose in_range_request)) (Py.Int 180) = false
  /\ Py.lt (Py.Float (glucose in_range_request)) (Py.Int 70) = false
  /\ (risk_score_of in_range_request <= 65
      /\ risk_label_of in_range_request <> "High").
Proof.
  split; [reflexivity|]. split; [reflexivity|].
  apply (calculate_risk_normal_glucose in_range_request); reflexivity.
Defined.

(** X4: a request whose glucose is below 70 scores between 50 and 95, is
    labelled "Medium" or "High", and never gets the missed-insulin
    contribution. *)
Theorem calculate_risk_hypoglycemia (d : PatientData) :
  Py.lt (Py.Float (glucose d)) (Py.Int 70) = true ->
  50 <= risk_score_of d <= 95
  /\ (risk_label_of d = "Medium" \/ risk_label_of d = "High")
  /\ ~ In "Missed insulin correction?" (snd (score_and_reasons d)).
Proof.
  intros Hlo.
  assert (Hs : 50 <= risk_score_of d <= 95).
  { rewrite risk_score_of_min. unfold spec_sum.
    risk_cases d; try congruence; cbn; lia. }
  split; [exact Hs|]. split.
  - rewrite risk_label_of_score. unfold label_of_score.
    destruct (Z.ltb_spec (risk_score_of d) 30); [lia|].
    destruct (Z.ltb_spec (risk_score_of d) 70); auto.
  - rewrite score_and_reasons_spec. cbn [snd]. unfold spec_reasons.
    risk_cases d; try congruence; cbn;
      intros H; repeat (destruct H as [H | H]; [discriminate H|]); exact H.
Qed.

Lemma calculate_risk_hypoglycemia_witness :
  Py.lt (Py.Float (glucose glucose_60)) (Py.Int 70) = true
  /\ (50 <= risk_score_of glucose_60 <= 95
      /\ (risk_label_of glucose_60 = "Medium"
          \/ risk_label_of glucose_60 = "High")
      /\ ~ In "Missed insulin correction?" (snd (score_and_reasons glucose_60))).
Proof.
  split; [reflexivity|].
  apply (calculate_risk_hypoglycemia glucose_60). reflexivity.
Defined.

(** X5: a request with glucose above 180 and [insulin_units == 0] scores
    at least 70 and is labelled "High": glucose above 180 is above 150,
    so that the missed-insulin contribution is added. *)
Theorem calculate_risk_elevated_no_insulin (d : PatientData) :
  Py.gt (Py.Float (glucose d)) (Py.Int 180) = true ->
  Py.eq (Py.Float (insulin_units d)) (Py.Int 0) = true ->
  70 <= risk_score_of d
  /\ risk_label_of d = "High"
  /\ In "Missed insulin correction?" (snd (score_and_reasons d)).
Proof.
  intros Hhi Hins.
  assert (Hs : 70 <= risk_score_of d).
  { rewrite risk_score_of_min. unfold spec_sum.
    risk_cases d; try congruence; cbn; lia. }
  split; [exact Hs|]. split.
  - rewrite risk_label_of_score. unfold label_of_score.
    destruct (Z.ltb_spec (risk_score_of d) 30); [lia|].
    destruct (Z.ltb_spec (risk_score_of d) 70); [lia|reflexivity].
  - rewrite score_and_reasons_spec. cbn [snd]. unfold spec_reasons.
    risk_cases d; try congruence; cbn; tauto.
Qed.

Lemma calculate_risk_elevated_no_insulin_witness :
  Py.gt (Py.Float (glucose glucose_200)) (Py.Int 180) = true
  /\ Py.eq (Py.Float (insulin_units glucose_200)) (Py.Int 0) = true
  /\ (70 <= risk_score_of glucose_200
      /\ risk_label_of glucose_200 = "High"
      /\ In "Missed insulin correction?" (snd (score_and_reasons glucose_200))).
Proof.
  split; [reflexivity|]. split; [reflexivity|].
  apply (calculate_risk_elevated_no_insulin glucose_200); reflexivity.
Defined.

(** X6: on a request that gives glucose only, the field defaults make
    the result one of four, by glucose band: above 180, below 70, above
    150, and the rest (a NaN included).  The default [insulin_units] is 0,
    so that every default request above 150 is told of a missed insulin
    correction. *)
Theorem calculate_risk_defaults (g : Py.float) :
  calculate_risk (PatientData_defaults g)
  = if Py.gt (Py.Float g) (Py.Int 180) then
      (70, "High", "Current glucose is elevated. Missed insulin correction?")
    else if Py.lt (Py.Float g) (Py.Int 70) then
      (50, "Medium", "Risk of hypoglycemia.")
    else if Py.gt (Py.Float g) (Py.Int 150) then
      (20, "Low", "Missed insulin correction?")
    else
      (10, "Low", "Levels look stable.").
Proof.
  unfold calculate_risk, score_and_reasons, PatientData_defaults.
  cbn [glucose insulin_units carbs_grams activity_level stress_level].
  change (Py.gt (Py.Float (Py.float_of_int 0)) (Py.Int 60)) with false.
  change (Py.gt (Py.Float (Py.float_of_int 5)) (Py.Int 7)) with false.
  change (Py.lt (Py.Float (Py.float_of_int 5)) (Py.Int 3)) with false.
  change (Py.eq (Py.Float (Py.float_of_int 0)) (Py.Int 0)) with true.
  destruct (Py.gt (Py.Float g) (Py.Int 180)) eqn:H180.
  - rewrite (gt_int_mono g 180 150 ltac:(lia) H180). reflexivity.
  - destruct (Py.lt (Py.Float g) (Py.Int 70)) eqn:H70.
    + rewrite (lt_int_not_gt g 70 150 ltac:(lia) H70). reflexivity.
    + destruct (Py.gt (Py.Float g) (Py.Int 150)); reflexivity.
Qed.

(* ================================================================= *)
(** ** Ints that a double holds exactly *)

Section Binary64.

Lemma digits2_pos_size (p : positive) : digits2_pos p = Pos.size p.
Proof. induction p; cbn; congruence. Qed.

Lemma iter_pos_comm {A : Type} (f : A -> A) (k : positive) :
  forall x, iter_pos f k (f x) = f (iter_pos f k x).
Proof.
  induction k as [k IH | k IH |]; intros x; cbn.
  - rewrite !IH. reflexivity.
  - rewrite !IH. reflexivity.
  - reflexivity.
Qed.

Lemma iter_pos_succ {A : Type} (f : A -> A) (k : positive) :
  forall x, iter_pos f (Pos.succ k) x = iter_pos f k (f x).
Proof.
  induction k as [k IH | k IH |]; intros x; cbn.
  - rewrite !IH. rewrite !iter_pos_comm. reflexivity.
  - rewrite !iter_pos_comm. reflexivity.
  - reflexivity.
Qed.

Lemma pos_iter_xO_value (m d : positive) :
  Z.pos (Pos.iter xO m d) = Z.pos m * 2 ^ Z.pos d.
Proof.
  induction d as [|d IH] using Pos.peano_ind.
  - cbn. lia.
  - rewrite Pos.iter_succ. rewrite Pos2Z.inj_xO, IH.
    rewrite Pos2Z.inj_succ, Z.pow_succ_r by lia. lia.
Qed.

Lemma digits2_pos_iter_xO (p k : positive) :
  digits2_pos (Pos.iter xO p k) = (digits2_pos p + k)%positive.
Proof.
  induction k as [|k IH] using Pos.peano_ind.
  - cbn. lia.
  - rewrite Pos.iter_succ. cbn [digits2_pos]. rewrite IH. lia.
Qed.

Lemma digits2_pos_le_53 (p : positive) :
  Z.pos p < 2 ^ 53 -> Z.pos (digits2_pos p) <= 53.
Proof.
  intros Hp. rewrite digits2_pos_size.
  pose proof (Pos.size_le p) as Hle.
  apply Pos2Z.pos_le_pos in Hle. rewrite Pos2Z.inj_pow in Hle.
  destruct (Z_le_gt_dec (Z.pos (Pos.size p)) 53) as [H | H]; [exact H | exfalso].
  assert (2 ^ 54 <= 2 ^ Z.pos (Pos.size p)) by (apply Z.pow_le_mono_r; lia).
  assert (H54 : 2 ^ 54 = 2 * 2 ^ 53) by reflexivity.
  remember (2 ^ 53) as P. remember (2 ^ 54) as Q.
  remember (2 ^ Z.pos (Pos.size p)) as R. lia.
Qed.

Lemma fexp_53 (e : Z) : fexp Py.prec Py.emax e = Z.max (e - 53) (-1074).
Proof. reflexivity. Qed.

(** Rounding [2m * 2^(e-1)] is rounding [m * 2^e]: the bit shifted in is
    the first one shifted out. *)
Lemma binary_round_double (s : bool) (p : positive) (e : Z) :
  binary_round Py.prec Py.emax s p~0 (e - 1) = binary_round Py.prec Py.emax s p e.
Proof.
  unfold binary_round.
  replace (Z.pos (digits2_pos p~0) + (e - 1)) with (Z.pos (digits2_pos p) + e)
    by (cbn [digits2_pos]; lia).
  set (t := fexp Py.prec Py.emax (Z.pos (digits2_pos p) + e)).
  unfold shl_align.
  destruct (t - e) as [|n|d] eqn:Hte.
  - replace (t - (e - 1)) with 1 by lia.
    unfold binary_round_aux, shr_fexp.
    replace (Zdigits2 (Z.pos p~0) + (e - 1)) with (Z.pos (digits2_pos p) + e)
      by (cbn [Zdigits2 digits2_pos]; lia).
    cbn [Zdigits2]. fold t. rewrite Hte.
    replace (t - (e - 1)) with 1 by lia.
    cbn [shr shr_record_of_loc iter_pos shr_1 orb].
    replace (e - 1 + 1) with e by lia. reflexivity.
  - replace (t - (e - 1)) with (Z.pos (Pos.succ n)) by lia.
    unfold binary_round_aux, shr_fexp.
    replace (Zdigits2 (Z.pos p~0) + (e - 1)) with (Z.pos (digits2_pos p) + e)
      by (cbn [Zdigits2 digits2_pos]; lia).
    cbn [Zdigits2]. fold t. rewrite Hte.
    replace (t - (e - 1)) with (Z.pos (Pos.succ n)) by lia.
    cbn [shr shr_record_of_loc]. rewrite iter_pos_succ.
    cbn [shr_1 orb].
    replace (e - 1 + Z.pos (Pos.succ n)) with (e + Z.pos n) by lia. reflexivity.
  - destruct (t - (e - 1)) as [|n'|d'] eqn:Hte'; try lia.
    + assert (d = 1%positive) by lia. subst d. cbn [Pos.iter].
      replace (e - 1) with t by lia. reflexivity.
    + assert (Hd : d = Pos.succ d') by lia. subst d.
      rewrite Pos.iter_succ_r. reflexivity.
Qed.

Lemma binary_round_shift (s : bool) (p k : positive) (e : Z) :
  binary_round Py.prec Py.emax s (Pos.iter xO p k) (e - Z.pos k)
  = binary_round Py.prec Py.emax s p e.
Proof.
  revert e. induction k as [|k IH] using Pos.peano_ind; intros e.
  - cbn [Pos.iter]. apply binary_round_double.
  - rewrite Pos.iter_succ.
    replace (e - Z.pos (Pos.succ k)) with ((e - Z.pos k) - 1) by lia.
    rewrite binary_round_double. apply IH.
Qed.

Lemma binary_round_scaled (s : bool) (p q : positive) (k : Z) :
  0 <= k -> Z.pos q = Z.pos p * 2 ^ k ->
  binary_round Py.prec Py.emax s q (- k) = binary_round Py.prec Py.emax s p 0.
Proof.
  intros Hk Hq. destruct k as [|k|k]; try lia.
  - cbn in Hq. assert (q = p) by lia. subst q. reflexivity.
  - rewrite <- pos_iter_xO_value in Hq. injection Hq as ->.
    apply (binary_round_shift s p k 0).
Qed.

(** A mantissa of exactly 53 bits with an exponent in range is kept as
    it is. *)
Lemma binary_round_canonical (s : bool) (q : positive) (e : Z) :
  Z.pos (digits2_pos q) = 53 -> -1074 <= e <= 971 ->
  binary_round Py.prec Py.emax s q e = S754_finite s q e.
Proof.
  intros Hd He.
  unfold binary_round. rewrite Hd, fexp_53.
  replace (Z.max (53 + e - 53) (-1074)) with e by lia.
  unfold shl_align. rewrite Z.sub_diag.
  unfold binary_round_aux, shr_fexp. cbn [Zdigits2]. rewrite Hd, fexp_53.
  replace (Z.max (53 + e - 53) (-1074)) with e by lia.
  rewrite Z.sub_diag.
  cbn [shr shr_record_of_loc loc_of_shr_record shr_m shr_r shr_s round_nearest_even].
  cbn [Zdigits2]. rewrite Hd, fexp_53.
  replace (Z.max (53 + e - 53) (-1074)) with e by lia.
  rewrite Z.sub_diag. cbn [shr shr_record_of_loc loc_of_shr_record shr_m shr_r shr_s].
  replace (e <=? Py.emax - Py.prec) with true
    by (symmetry; apply Z.leb_le; unfold Py.emax, Py.prec; lia).
  reflexivity.
Qed.

Lemma binary_round_exact (s : bool) (p : positive) :
  Z.pos p < 2 ^ 53 ->
  exists q e, binary_round Py.prec Py.emax s p 0 = S754_finite s q e
              /\ -52 <= e <= 0 /\ Z.pos q = Z.pos p * 2 ^ (- e).
Proof.
  intros Hp. pose proof (digits2_pos_le_53 p Hp) as Hd.
  destruct (53 - Z.pos (digits2_pos p)) as [|k|k] eqn:Hk; try lia.
  - exists p, 0. split; [|split].
    + apply binary_round_canonical; lia.
    + lia.
    + change (2 ^ (- 0)) with 1. lia.
  - exists (Pos.iter xO p k), (- Z.pos k). split; [|split].
    + rewrite <- (binary_round_shift s p k 0). cbn [Z.sub Z.add Z.opp].
      apply binary_round_canonical.
      * rewrite digits2_pos_iter_xO. lia.
      * lia.
    + lia.
    + rewrite Z.opp_involutive. apply pos_iter_xO_value.
Qed.

(** [float(z)] of a non-zero int below [2^53] is a finite double of
    exactly that value, with an exponent that is not positive. *)
Lemma float_of_int_finite (z : Z) :
  z <> 0 -> Z.abs z < 2 ^ 53 ->
  exists s q e, Py.float_of_int z = S754_finite s q e
                /\ -52 <= e <= 0 /\ Py.signed s q = z * 2 ^ (- e).
Proof.
  intros Hz Hb. destruct z as [|p|p]; [congruence| |].
  - destruct (binary_round_exact false p Hb) as (q & e & Hq & He & Hv).
    exists false, q, e. split; [exact Hq | split; [exact He | exact Hv]].
  - destruct (binary_round_exact true p Hb) as (q & e & Hq & He & Hv).
    exists true, q, e. split; [exact Hq | split; [exact He |]].
    cbn [Py.signed]. rewrite <- !Pos2Z.opp_pos. lia.
Qed.

Lemma binary_normalize_scaled (w k : Z) :
  0 <= k ->
  binary_normalize Py.prec Py.emax (w * 2 ^ k) (- k) false = Py.float_of_int w.
Proof.
  intros Hk. assert (Hpow : 0 < 2 ^ k) by (apply Z.pow_pos_nonneg; lia).
  unfold Py.float_of_int, binary_normalize.
  destruct w as [|p|p].
  - reflexivity.
  - destruct (Z.pos p * 2 ^ k) as [|q|q] eqn:Hq; try lia.
    apply binary_round_scaled; [exact Hk | lia].
  - destruct (Z.neg p * 2 ^ k) as [|q|q] eqn:Hq; try lia.
    apply binary_round_scaled; [exact Hk |].
    rewrite <- !Pos2Z.opp_pos in Hq. lia.
Qed.

Lemma shl_align_value (m : positive) (e t : Z) :
  t <= e -> Z.pos (fst (shl_align m e t)) = Z.pos m * 2 ^ (e - t).
Proof.
  intros Ht. unfold shl_align.
  destruct (t - e) as [|n|d] eqn:Hte; try lia.
  - replace (e - t) with 0 by lia. cbn [fst]. lia.
  - cbn [fst]. rewrite pos_iter_xO_value. f_equal. f_equal. lia.
Qed.

Lemma signed_cond_Zopp (s : bool) (m : positive) :
  cond_Zopp s (Z.pos m) = Py.signed s m.
Proof. destruct s; reflexivity. Qed.

Lemma cond_Zopp_mul (s : bool) (a b : Z) :
  cond_Zopp s (a * b) = cond_Zopp s a * b.
Proof. destruct s; cbn [cond_Zopp]; lia. Qed.

(** The float sum of two ints below [2^53] is the float of their sum:
    no rounding other than that of the conversion. *)
Lemma SFadd_float_of_int (z c : Z) :
  Z.abs z < 2 ^ 53 -> Z.abs c < 2 ^ 53 ->
  SFadd Py.prec Py.emax (Py.float_of_int z) (Py.float_of_int c)
  = Py.float_of_int (z + c).
Proof.
  intros Hz Hc.
  destruct (Z.eq_dec z 0) as [-> | Hz0].
  - destruct (Z.eq_dec c 0) as [-> | Hc0]; [reflexivity|].
    rewrite Z.add_0_l.
    destruct (float_of_int_finite c Hc0 Hc) as (s & q & e & -> & _).
    reflexivity.
  - destruct (float_of_int_finite z Hz0 Hz) as (sx & qx & ex & Hx & Hex & Hvx).
    destruct (Z.eq_dec c 0) as [-> | Hc0].
    + rewrite Z.add_0_r, Hx. reflexivity.
    + destruct (float_of_int_finite c Hc0 Hc) as (sy & qy & ey & Hy & Hey & Hvy).
      rewrite Hx, Hy. cbn [SFadd].
      set (ez := Z.min ex ey).
      rewrite !shl_align_value by (unfold ez; lia).
      rewrite !cond_Zopp_mul, !signed_cond_Zopp, Hvx, Hvy.
      rewrite <- !Z.mul_assoc, <- !Z.pow_add_r by lia.
      replace (- ex + (ex - ez)) with (- ez) by lia.
      replace (- ey + (ey - ez)) with (- ez) by lia.
      rewrite <- Z.mul_add_distr_r.
      replace ez with (- (- ez)) at 2 by lia.
      apply binary_normalize_scaled. unfold ez. lia.
Qed.

Lemma float_of_int_is_finite (z : Z) :
  Z.abs z < 2 ^ 53 -> Py.is_finite (Py.float_of_int z) = true.
Proof.
  intros Hz. destruct (Z.eq_dec z 0) as [-> | Hz0]; [reflexivity|].
  destruct (float_of_int_finite z Hz0 Hz) as (s & q & e & -> & _).
  reflexivity.
Qed.

Lemma int_float_of_int (z : Z) :
  Z.abs z < 2 ^ 53 -> Py.int (Py.Float (Py.float_of_int z)) = Py.Return z.
Proof.
  intros Hz. destruct (Z.eq_dec z 0) as [-> | Hz0]; [reflexivity|].
  destruct (float_of_int_finite z Hz0 Hz) as (s & q & e & -> & He & Hv).
  cbn [Py.int]. rewrite Hv. destruct (Z.leb_spec 0 e) as [H0 | H0].
  - assert (e = 0) by lia. subst e.
    change (2 ^ (- 0)) with 1. change (2 ^ 0) with 1. f_equal. lia.
  - rewrite Z.quot_mul; [reflexivity|].
    apply Z.pow_nonzero; lia.
Qed.

Lemma compare_float_of_int (z w : Z) :
  Z.abs z < 2 ^ 53 ->
  Py.float_compare_int (Py.float_of_int z) w = Some (z ?= w).
Proof.
  intros Hz. destruct (Z.eq_dec z 0) as [-> | Hz0]; [reflexivity|].
  destruct (float_of_int_finite z Hz0 Hz) as (s & q & e & -> & He & Hv).
  cbn [Py.float_compare_int]. rewrite Hv. destruct (Z.leb_spec 0 e) as [H0 | H0].
  - assert (e = 0) by lia. subst e.
    change (2 ^ (- 0)) with 1. change (2 ^ 0) with 1.
    rewrite !Z.mul_1_r. reflexivity.
  - rewrite <- Zmult_compare_compat_r; [reflexivity|].
    apply Z.lt_gt, Z.pow_pos_nonneg; lia.
Qed.

End Binary64.

(* ================================================================= *)
(** ** The walk from an int-valued start *)

Section IntegerWalk.

Lemma clamp_int (w : Z) : clamp (Py.Int w) = Py.Int (Z.max 60 (Z.min 350 w)).
Proof.
  unfold clamp, Py.min, Py.max, Py.lt, Py.gt. cbn [Py.compare].
  destruct (Z.compare_spec w 350) as [H | H | H].
  - subst w. reflexivity.
  - cbn [Py.compare]. destruct (Z.compare_spec w 60) as [H' | H' | H']; f_equal; lia.
  - cbn [Py.compare]. change (350 ?= 60) with Gt. cbn. f_equal. lia.
Qed.

Lemma clamp_float_of_int (w : Z) :
  Z.abs w < 2 ^ 53 ->
  holds (Z.max 60 (Z.min 350 w)) (clamp (Py.Float (Py.float_of_int w))).
Proof.
  intros Hw. unfold clamp, Py.min, Py.max, Py.lt, Py.gt. cbn [Py.compare].
  rewrite compare_float_of_int by exact Hw.
  destruct (Z.compare_spec w 350) as [H | H | H].
  - left. cbn. f_equal. lia.
  - cbn [Py.compare]. rewrite compare_float_of_int by exact Hw.
    destruct (Z.compare_spec w 60) as [H' | H' | H'].
    + left. f_equal. lia.
    + left. f_equal. lia.
    + right. f_equal. f_equal. lia.
  - left. cbn. f_equal. lia.
Qed.

Lemma clamp_holds (v : Z) (x : Py.num) :
  Z.abs v < 2 ^ 53 -> holds v x -> holds (Z.max 60 (Z.min 350 v)) (clamp x).
Proof.
  intros Hv [-> | ->].
  - left. apply clamp_int.
  - apply clamp_float_of_int. exact Hv.
Qed.

Lemma add_holds (v c : Z) (x : Py.num) :
  Z.abs v < 2 ^ 53 -> Z.abs c < 2 ^ 53 ->
  holds v x -> holds (v + c) (Py.add x (Py.Int c)).
Proof.
  intros Hv Hc [-> | ->].
  - left. reflexivity.
  - right. cbn [Py.add]. rewrite SFadd_float_of_int by assumption. reflexivity.
Qed.

Lemma int_holds (v : Z) (x : Py.num) :
  Z.abs v < 2 ^ 53 -> holds v x -> Py.int x = Py.Return v.
Proof.
  intros Hv [-> | ->]; [reflexivity | apply int_float_of_int; exact Hv].
Qed.

Lemma int_walk_range (n : Z) (r : Random.state) (i : nat) :
  60 <= int_walk n r (S i) <= 350.
Proof. cbn [int_walk]. lia. Qed.

Lemma int_walk_small (n : Z) (r : Random.state) (i : nat) :
  Z.abs n <= 2 ^ 52 -> Z.abs (int_walk n r i) <= 2 ^ 52.
Proof.
  intros Hn. destruct i as [|i]; [exact Hn|].
  pose proof (int_walk_range n r i) as H.
  change (2 ^ 52) with 4503599627370496. lia.
Qed.

(** From an int-valued start, [current] is at every iteration the int of
    the integer walk, as an int or as the float of the same value. *)
Lemma spec_current_holds (n : Z) (r : Random.state) (i : nat) :
  Z.abs n <= 2 ^ 52 ->
  holds (int_walk n r i) (spec_current (Py.Float (Py.float_of_int n)) r i).
Proof.
  intros Hn. induction i as [|i IH].
  - right. reflexivity.
  - cbn [int_walk spec_current].
    pose proof (int_walk_small n r i Hn) as Hs.
    pose proof (spec_step_range r i) as Hc.
    change (2 ^ 52) with 4503599627370496 in Hs.
    apply clamp_holds; [change (2 ^ 53) with 9007199254740992; lia|].
    apply add_holds; [change (2 ^ 53) with 9007199254740992; lia ..| exact IH].
Qed.

Lemma generate_trend_float_of_int (n : Z) (r : Random.state) :
  Z.abs n <= 2 ^ 52 ->
  generate_trend (Py.float_of_int n) r
  = Py.Return (map (int_walk n r) (seq 0 14), drawn 14 r).
Proof.
  intros Hn.
  assert (Hn' : Z.abs n < 2 ^ 53).
  { change (2 ^ 52) with 4503599627370496 in Hn.
    change (2 ^ 53) with 9007199254740992. lia. }
  rewrite generate_trend_finite by (apply float_of_int_is_finite; exact Hn').
  f_equal. f_equal. apply map_ext. intros i.
  apply int_or_0_returns. apply int_holds; [|apply spec_current_holds; exact Hn].
  pose proof (int_walk_small n r i Hn) as Hs.
  change (2 ^ 52) with 4503599627370496 in Hs.
  change (2 ^ 53) with 9007199254740992. lia.
Qed.

(** One step of the integer walk from a value of the clamp's range moves
    by at most 15. *)
Lemma int_walk_step (n : Z) (r : Random.state) (i : nat) :
  60 <= int_walk n r i <= 350 ->
  Z.abs (int_walk n r (S i) - int_walk n r i) <= 15.
Proof.
  intros H. cbn [int_walk]. pose proof (spec_step_range r i). lia.
Qed.


End IntegerWalk.

(* ================================================================= *)
(** ** Further results on [generate_trend] *)

(** X7: [generate_trend] raises exactly on a start value that is not
    finite, whatever the draws: [ValueError] on a NaN, [OverflowError] on
    an infinity; both come from the first [int(current)]. *)
Theorem generate_trend_raises (f : Py.float) (r : Random.state) :
  (Py.is_finite f = false <-> exists e, generate_trend f r = Py.Raise e)
  /\ generate_trend Py.nan r = Py.Raise Py.ValueError
  /\ (forall s, generate_trend (S754_infinity s) r = Py.Raise Py.OverflowError).
Proof.
  split; [|split; [reflexivity | intros s; reflexivity]].
  split.
  - apply generate_trend_not_finite.
  - intros [e He]. destruct (Py.is_finite f) eqn:Hf; [|reflexivity].
    rewrite (generate_trend_finite f r Hf) in He. discriminate He.
Qed.

(** X8: from a start value that is an int of magnitude at most [2^52],
    the series is the integer random walk itself: the start, then at each
    step the previous element plus the drawn step, clamped to
    [[60, 350]].  No rounding occurs, whether [current] is a float or has
    become an int through [min] and [max]. *)
Theorem generate_trend_integer_walk (n : Z) (r : Random.state) :
  Z.abs n <= 2 ^ 52 ->
  generate_trend (Py.float_of_int n) r
  = Py.Return (map (int_walk n r) (seq 0 14), drawn 14 r).
Proof. apply generate_trend_float_of_int. Qed.

Lemma generate_trend_integer_walk_witness :
  Z.abs 100 <= 2 ^ 52
  /\ generate_trend (Py.float_of_int 100) zero_tape
     = Py.Return (map (int_walk 100 zero_tape) (seq 0 14), drawn 14 zero_tape).
Proof.
  split; [vm_compute; discriminate|].
  apply (generate_trend_integer_walk 100 zero_tape). vm_compute. discriminate.
Defined.

(** X9: from a start value that is an int of magnitude at most [2^52],
    two successive elements of the series differ by at most 15 from the
    second element on, and from the first on when the start lies in
    [[60, 350]]. *)
Theorem generate_trend_step_bound (n : Z) (r : Random.state) :
  Z.abs n <= 2 ^ 52 ->
  exists series,
    generate_trend (Py.float_of_int n) r = Py.Return (series, drawn 14 r)
    /\ (forall i, (1 <= i < 13)%nat ->
          Z.abs (nth (S i) series 0 - nth i series 0) <= 15)
    /\ (60 <= n <= 350 ->
        forall i, (i < 13)%nat ->
          Z.abs (nth (S i) series 0 - nth i series 0) <= 15).
Proof.
  intros Hn. eexists. split; [apply generate_trend_float_of_int; exact Hn|].
  split.
  - intros i Hi. rewrite !nth_map_seq by lia.
    apply int_walk_step. destruct i as [|i]; [lia|]. apply int_walk_range.
  - intros Hr i Hi. rewrite !nth_map_seq by lia.
    apply int_walk_step. destruct i as [|i]; [exact Hr|]. apply int_walk_range.
Qed.

Lemma generate_trend_step_bound_witness :
  Z.abs 100 <= 2 ^ 52
  /\ exists series,
       generate_trend (Py.float_of_int 100) zero_tape
       = Py.Return (series, drawn 14 zero_tape)
       /\ (forall i, (1 <= i < 13)%nat ->
             Z.abs (nth (S i) series 0 - nth i series 0) <= 15)
       /\ (60 <= 100 <= 350 ->
           forall i, (i < 13)%nat ->
             Z.abs (nth (S i) series 0 - nth i series 0) <= 15).
Proof.
  split; [vm_compute; discriminate|].
  apply (generate_trend_step_bound 100 zero_tape). vm_compute. discriminate.
Defined.

(** X10: the bound of 15 between successive elements does not extend to
    every start value of the clamp's range: from the double just below
    128 and a step of +15 the float sum rounds up to 143, so that the
    series starts 127, 143. *)
Theorem generate_trend_step_of_16 :
  exists start r series r',
    Py.gt (Py.Float start) (Py.Int 60) = true
    /\ Py.lt (Py.Float start) (Py.Int 350) = true
    /\ generate_trend start r = Py.Return (series, r')
    /\ nth 0 series 0 = 127
    /\ nth 1 series 0 = 143.
Proof.
  exists below_128, up_tape. eexists. eexists.
  split; [reflexivity|]. split; [reflexivity|].
  split; [vm_compute; reflexivity|]. split; reflexivity.
Qed.



(* ================================================================= *)
(** ** The two endpoints *)

Section Endpoints.

Lemma predict_risk_finite (d : PatientData) (r : Random.state) :
  Py.is_finite (glucose d) = true ->
  predict_risk d r
  = Py.Return
      ({| risk_score := risk_score_of d;
          risk_label := risk_label_of d;
          explanation := risk_explanation_of d;
          glucose_series_14d :=
            map (fun i => int_or_0 (spec_current (Py.Float (glucose d)) r i))
                (seq 0 14) |},
       drawn 14 r).
Proof.
  intros Hf. unfold predict_risk, risk_score_of, risk_label_of, risk_explanation_of.
  destruct (calculate_risk d) as [[score label] expl0]. cbn [fst snd].
  unfold Random.bind. rewrite (generate_trend_finite _ r Hf). reflexivity.
Qed.

Lemma predict_risk_not_finite (d : PatientData) (r : Random.state) :
  Py.is_finite (glucose d) = false ->
  predict_risk d r = generate_trend_raise (glucose d).
Proof.
  intros Hf. unfold predict_risk.
  destruct (calculate_risk d) as [[score label] expl0].
  unfold Random.bind.
  destruct (glucose d) as [s | s | | s m e]; try discriminate Hf; reflexivity.
Qed.

(** The truncation of a float lies on the same side of a non-negative int
    as the float, when it is not that int. *)
Lemma int_above (f : Py.float) (v z : Z) :
  0 <= z -> Py.int (Py.Float f) = Py.Return v -> z < v ->
  Py.float_compare_int f z = Some Gt.
Proof.
  intros Hz Hi Hv. destruct f as [s | s | | s m e]; cbn in Hi; try discriminate Hi.
  - injection Hi as <-. lia.
  - cbn [Py.float_compare_int]. destruct (0 <=? e) eqn:He.
    + injection Hi as <-. f_equal. apply Z.compare_gt_iff. lia.
    + injection Hi as <-. apply Z.leb_gt in He.
      assert (Hp : 0 < 2 ^ (- e)) by (apply Z.pow_pos_nonneg; lia).
      f_equal. apply Z.compare_gt_iff.
      pose proof (Z.quot_rem' (Py.signed s m) (2 ^ (- e))) as Hqr.
      destruct (Z_le_gt_dec 0 (Py.signed s m)) as [Hs | Hs].
      * pose proof (Z.rem_bound_pos (Py.signed s m) (2 ^ (- e)) Hs Hp). nia.
      * pose proof (Z.rem_bound_pos_neg (Py.signed s m) (2 ^ (- e)) Hp ltac:(lia)). nia.
Qed.

Lemma int_below (f : Py.float) (v z : Z) :
  0 <= z -> Py.int (Py.Float f) = Py.Return v -> v < z ->
  Py.float_compare_int f z = Some Lt.
Proof.
  intros Hz Hi Hv. destruct f as [s | s | | s m e]; cbn in Hi; try discriminate Hi.
  - injection Hi as <-. cbn [Py.float_compare_int]. f_equal.
    apply Z.compare_lt_iff. lia.
  - cbn [Py.float_compare_int]. destruct (0 <=? e) eqn:He.
    + injection Hi as <-. f_equal. apply Z.compare_lt_iff. lia.
    + injection Hi as <-. apply Z.leb_gt in He.
      assert (Hp : 0 < 2 ^ (- e)) by (apply Z.pow_pos_nonneg; lia).
      f_equal. apply Z.compare_lt_iff.
      pose proof (Z.quot_rem' (Py.signed s m) (2 ^ (- e))) as Hqr.
      destruct (Z_le_gt_dec 0 (Py.signed s m)) as [Hs | Hs].
      * pose proof (Z.rem_bound_pos (Py.signed s m) (2 ^ (- e)) Hs Hp). nia.
      * nia.
Qed.

Lemma int_at_least (f : Py.float) (v z : Z) :
  0 < z -> Py.int (Py.Float f) = Py.Return v -> z <= v ->
  Py.lt (Py.Float f) (Py.Int z) = false.
Proof.
  intros Hz Hi Hv. unfold Py.lt, Py.compare.
  destruct f as [s | s | | s m e]; cbn in Hi; try discriminate Hi.
  - injection Hi as <-. lia.
  - cbn [Py.float_compare_int]. destruct (0 <=? e) eqn:He.
    + injection Hi as <-.
      destruct (Z.compare_spec (Py.signed s m * 2 ^ e) z); try reflexivity; lia.
    + injection Hi as <-. apply Z.leb_gt in He.
      assert (Hp : 0 < 2 ^ (- e)) by (apply Z.pow_pos_nonneg; lia).
      pose proof (Z.quot_rem' (Py.signed s m) (2 ^ (- e))) as Hqr.
      destruct (Z.compare_spec (Py.signed s m) (z * 2 ^ (- e))); try reflexivity.
      destruct (Z_le_gt_dec 0 (Py.signed s m)) as [Hs | Hs].
      * pose proof (Z.rem_bound_pos (Py.signed s m) (2 ^ (- e)) Hs Hp). nia.
      * pose proof (Z.rem_bound_pos_neg (Py.signed s m) (2 ^ (- e)) Hp ltac:(lia)). nia.
Qed.

Lemma score_glucose_high (d : PatientData) :
  Py.gt (Py.Float (glucose d)) (Py.Int 180) = true -> 60 <= risk_score_of d.
Proof.
  intros H. unfold risk_score_of. rewrite calculate_risk_score.
  assert (60 <= spec_sum d) by (unfold spec_sum; risk_cases d; try congruence; cbn; lia).
  lia.
Qed.

Lemma score_glucose_low (d : PatientData) :
  Py.lt (Py.Float (glucose d)) (Py.Int 70) = true -> 50 <= risk_score_of d <= 95.
Proof.
  intros H. unfold risk_score_of. rewrite calculate_risk_score.
  assert (50 <= spec_sum d <= 95)
    by (unfold spec_sum; risk_cases d; try congruence; cbn; lia).
  lia.
Qed.

Lemma score_glucose_normal (d : PatientData) :
  Py.gt (Py.Float (glucose d)) (Py.Int 180) = false ->
  Py.lt (Py.Float (glucose d)) (Py.Int 70) = false ->
  risk_score_of d <= 65.
Proof.
  intros H H'. unfold risk_score_of. rewrite calculate_risk_score.
  assert (spec_sum d <= 65)
    by (unfold spec_sum; risk_cases d; try congruence; cbn; lia).
  lia.
Qed.

(** [scan_product] returns the response built from one entry of the
    catalog and a score of the range of its label, after two draws. *)
Lemma scan_product_value (file : string) (r : Random.state) :
  exists p score,
    In p products
    /\ in_bucket (risk p) score
    /\ scan_product file r = Py.Return (scan_response p score, drawn 2 r).
Proof.
  unfold scan_product, Random.bind at 1.
  destruct (choice_In (A := product) apple (tl products) r) as (p & Hp & Hin).
  change (apple :: tl products) with products in Hp, Hin.
  rewrite Hp. unfold Random.bind at 1. rewrite advance_eq_drawn.
  exists p.
  destruct (products_cases p Hin)
    as [[Hn Hr] | [[Hn Hr] | [[Hn Hr] | [[Hn Hr] | [Hn Hr]]]]];
    unfold in_bucket; rewrite Hr; cbn [String.eqb Ascii.eqb Bool.eqb];
    match goal with
    | |- context [Random.randint ?a ?b ?s] =>
        destruct (randint_range a b s ltac:(lia)) as (v & Hv & Hrange);
        rewrite Hv, advance_drawn
    end;
    exists v; (split; [exact Hin|]);
    (split; [intuition lia|]); unfold scan_response; rewrite Hr; reflexivity.
Qed.

Lemma label_of_score_bucket (label : string) (score : Z) :
  in_bucket label score -> label_of_score score = label.
Proof.
  unfold in_bucket, label_of_score.
  intros [[-> H] | [[-> H] | [-> H]]].
  - destruct (Z.ltb_spec score 30); [lia|].
    destruct (Z.ltb_spec score 70); [lia|]. reflexivity.
  - destruct (Z.ltb_spec score 30); [lia|].
    destruct (Z.ltb_spec score 70); [|lia]. reflexivity.
  - destruct (Z.ltb_spec score 30); [|lia]. reflexivity.
Qed.

(** [scan_product] on a generator whose first draw is the index [i] of
    an entry and whose second draw is the offset of [s] in the range
    [[lo, hi]] that the label of the entry selects. *)
Lemma scan_product_on_tape (file : string) (i : nat) (p : product) (lo hi s : Z) :
  nth_error products i = Some p ->
  (if String.eqb (risk p) "High" then Random.randint 70 95
   else if String.eqb (risk p) "Medium" then Random.randint 30 69
   else Random.randint 5 29) = Random.randint lo hi ->
  lo <= s <= hi ->
  scan_product file (scan_tape (Z.of_nat i) (s - lo))
  = Py.Return (scan_response p s, drawn 2 (scan_tape (Z.of_nat i) (s - lo))).
Proof.
  intros Hnth Hrand Hs.
  assert (Hi : (i < 5)%nat).
  { change 5%nat with (List.length products).
    apply nth_error_Some. rewrite Hnth. discriminate. }
  unfold scan_product, Random.bind at 1.
  change (Random.choice products (scan_tape (Z.of_nat i) (s - lo)))
    with (match nth_error products (Z.to_nat (Z.of_nat i mod 5)) with
          | Some x => Random.ret x
          | None => Random.raise Py.IndexError
          end (Random.advance (scan_tape (Z.of_nat i) (s - lo)))).
  rewrite Z.mod_small by lia. rewrite Nat2Z.id, Hnth.
  unfold Random.ret at 1. unfold Random.bind at 1. rewrite Hrand.
  rewrite randint_value by lia.
  change (Random.tape (Random.advance (scan_tape (Z.of_nat i) (s - lo)))
            (Random.cursor (Random.advance (scan_tape (Z.of_nat i) (s - lo)))))
    with (s - lo).
  rewrite Z.mod_small by lia.
  replace (lo + (s - lo)) with s by lia.
  reflexivity.
Qed.

End Endpoints.

(* ================================================================= *)
(** ** Results on [predict_risk] *)

(** X12: on a request whose glucose is finite, [predict_risk] returns a
    response whose score, label and explanation are the three results of
    [calculate_risk] on the request and whose series is the one
    [generate_trend] returns on the glucose value from the same
    generator: fourteen elements, fourteen draws consumed. *)
Theorem predict_risk_returns (d : PatientData) (r : Random.state) :
  Py.is_finite (glucose d) = true ->
  exists resp,
    predict_risk d r = Py.Return (resp, drawn 14 r)
    /\ (risk_score resp, risk_label resp, explanation resp) = calculate_risk d
    /\ generate_trend (glucose d) r
       = Py.Return (glucose_series_14d resp, drawn 14 r)
    /\ List.length (glucose_series_14d resp) = 14%nat.
Proof.
  intros Hf. eexists. split; [apply predict_risk_finite; exact Hf|].
  cbn [risk_score risk_label explanation glucose_series_14d].
  split; [|split].
  - unfold risk_score_of, risk_label_of, risk_explanation_of.
    destruct (calculate_risk d) as [[score label] expl0]. reflexivity.
  - apply generate_trend_finite. exact Hf.
  - rewrite length_map, length_seq. reflexivity.
Qed.

Lemma predict_risk_returns_witness :
  Py.is_finite (glucose glucose_200) = true
  /\ exists resp,
       predict_risk glucose_200 zero_tape = Py.Return (resp, drawn 14 zero_tape)
       /\ (risk_score resp, risk_label resp, explanation resp)
          = calculate_risk glucose_200
       /\ generate_trend (glucose glucose_200) zero_tape
          = Py.Return (glucose_series_14d resp, drawn 14 zero_tape)
       /\ List.length (glucose_series_14d resp) = 14%nat.
Proof.
  split; [reflexivity|].
  apply (predict_risk_returns glucose_200 zero_tape). reflexivity.
Defined.

(** X13: in a response of [predict_risk] the score agrees with the first
    element of the series, which is the truncated glucose reading: a first
    element of 181 or more comes with a score of at least 60, one of 69 or
    less with a score of [[50, 95]], and one of [[70, 179]] with a score
    of at most 65, hence never with the label "High". *)
Theorem predict_risk_first_reading (d : PatientData) (r : Random.state) :
  Py.is_finite (glucose d) = true ->
  exists resp,
    predict_risk d r = Py.Return (resp, drawn 14 r)
    /\ (181 <= nth 0 (glucose_series_14d resp) 0 -> 60 <= risk_score resp)
    /\ (nth 0 (glucose_series_14d resp) 0 <= 69 ->
        50 <= risk_score resp <= 95)
    /\ (70 <= nth 0 (glucose_series_14d resp) 0 <= 179 ->
        risk_score resp <= 65 /\ risk_label resp <> "High").
Proof.
  intros Hf. eexists. split; [apply predict_risk_finite; exact Hf|].
  cbn [risk_score risk_label glucose_series_14d].
  rewrite nth_map_seq by lia. cbn [spec_current].
  destruct (int_finite (glucose d) Hf) as [v Hv].
  rewrite (int_or_0_returns _ _ Hv).
  split; [|split].
  - intros H. apply score_glucose_high. apply gt_float_int.
    apply (int_above _ v 180); [lia | exact Hv | lia].
  - intros H. apply score_glucose_low. apply lt_float_int.
    apply (int_below _ v 70); [lia | exact Hv | lia].
  - intros H.
    assert (H180 : Py.gt (Py.Float (glucose d)) (Py.Int 180) = false).
    { unfold Py.gt, Py.compare.
      rewrite (int_below _ v 180); [reflexivity | lia | exact Hv | lia]. }
    assert (H70 : Py.lt (Py.Float (glucose d)) (Py.Int 70) = false).
    { apply (int_at_least _ v 70); [lia | exact Hv | lia]. }
    pose proof (score_glucose_normal d H180 H70) as Hs.
    split; [exact Hs|].
    rewrite risk_label_of_score. unfold label_of_score.
    destruct (Z.ltb_spec (risk_score_of d) 30); [discriminate|].
    destruct (Z.ltb_spec (risk_score_of d) 70); [discriminate | lia].
Qed.

Lemma predict_risk_first_reading_witness :
  Py.is_finite (glucose glucose_200) = true
  /\ exists resp,
       predict_risk glucose_200 zero_tape = Py.Return (resp, drawn 14 zero_tape)
       /\ (181 <= nth 0 (glucose_series_14d resp) 0 -> 60 <= risk_score resp)
       /\ (nth 0 (glucose_series_14d resp) 0 <= 69 ->
           50 <= risk_score resp <= 95)
       /\ (70 <= nth 0 (glucose_series_14d resp) 0 <= 179 ->
           risk_score resp <= 65 /\ risk_label resp <> "High").
Proof.
  split; [reflexivity|].
  apply (predict_risk_first_reading glucose_200 zero_tape). reflexivity.
Defined.

(** X14: [predict_risk] raises exactly on a request whose glucose is a NaN
    ([ValueError]) or an infinity ([OverflowError]), whatever the other
    fields and the draws: [calculate_risk] has scored the request by
    then, and the exception is that of [generate_trend]. *)
Theorem predict_risk_raises (d : PatientData) (r : Random.state) :
  (Py.is_finite (glucose d) = false <-> exists e, predict_risk d r = Py.Raise e)
  /\ (glucose d = Py.nan -> predict_risk d r = Py.Raise Py.ValueError)
  /\ (forall s, glucose d = S754_infinity s ->
        predict_risk d r = Py.Raise Py.OverflowError).
Proof.
  split; [split|split].
  - intros Hf. rewrite (predict_risk_not_finite d r Hf).
    destruct (glucose d); cbn; eauto.
  - intros [e He]. destruct (Py.is_finite (glucose d)) eqn:Hf; [|reflexivity].
    rewrite (predict_risk_finite d r Hf) in He. discriminate He.
  - intros Hg. rewrite predict_risk_not_finite by (rewrite Hg; reflexivity).
    rewrite Hg. reflexivity.
  - intros s Hg. rewrite predict_risk_not_finite by (rewrite Hg; reflexivity).
    rewrite Hg. reflexivity.
Qed.

(* ================================================================= *)
(** ** Further results on [scan_product] *)

(** X15: the five fields of a response of [scan_product] come from one
    and the same entry of the catalog: its name, its carbs as a float, its
    label and its explanation, with a score of the range of that label;
    two draws are consumed. *)
Theorem scan_product_from_catalog (file : string) (r : Random.state) :
  exists p score,
    In p products
    /\ in_bucket (risk p) score
    /\ scan_product file r
       = Py.Return
           ({| product_name := name p;
               estimated_carbs := Py.float_of_int (carbs p);
               scan_risk_label := risk p;
               scan_risk_score := score;
               scan_explanation := expl p |},
            drawn 2 r).
Proof. apply scan_product_value. Qed.

(** X16: the label of a scan response is the one the thresholds of
    [calculate_risk] give to its score: "Low" below 30, "Medium" below
    70, "High" from 70 on. *)
Theorem scan_product_label_of_score (file : string) (r : Random.state) :
  exists resp,
    scan_product file r = Py.Return (resp, drawn 2 r)
    /\ scan_risk_label resp = label_of_score (scan_risk_score resp).
Proof.
  destruct (scan_product_value file r) as (p & score & _ & Hb & Hs).
  exists (scan_response p score). split; [exact Hs|].
  cbn [scan_response scan_risk_label scan_risk_score].
  symmetry. apply label_of_score_bucket. exact Hb.
Qed.

(** X17: every entry of the catalog with every score of the range of its
    label is returned for some sequence of draws: the ranges are exact. *)
Theorem scan_product_reaches (file : string) (p : product) (score : Z) :
  In p products ->
  in_bucket (risk p) score ->
  exists r, scan_product file r = Py.Return (scan_response p score, drawn 2 r).
Proof.
  unfold products. cbn [In]. unfold in_bucket.
  intros [<- | [<- | [<- | [<- | [<- | []]]]]]; cbn [risk];
    intros [[Hl Hs] | [[Hl Hs] | [Hl Hs]]]; try discriminate Hl.
  - exists (scan_tape (Z.of_nat 0) (score - 5)).
    apply (scan_product_on_tape file 0 _ 5 29); [reflexivity | reflexivity | exact Hs].
  - exists (scan_tape (Z.of_nat 1) (score - 70)).
    apply (scan_product_on_tape file 1 _ 70 95); [reflexivity | reflexivity | exact Hs].
  - exists (scan_tape (Z.of_nat 2) (score - 30)).
    apply (scan_product_on_tape file 2 _ 30 69); [reflexivity | reflexivity | exact Hs].
  - exists (scan_tape (Z.of_nat 3) (score - 5)).
    apply (scan_product_on_tape file 3 _ 5 29); [reflexivity | reflexivity | exact Hs].
  - exists (scan_tape (Z.of_nat 4) (score - 70)).
    apply (scan_product_on_tape file 4 _ 70 95); [reflexivity | reflexivity | exact Hs].
Qed.

Lemma scan_product_reaches_witness :
  In apple products
  /\ in_bucket (risk apple) 17
  /\ exists r,
       scan_product EmptyString r = Py.Return (scan_response apple 17, drawn 2 r).
Proof.
  assert (Hin : In apple products) by (left; reflexivity).
  assert (Hb : in_bucket (risk apple) 17)
    by (right; right; split; [reflexivity | lia]).
  split; [exact Hin|]. split; [exact Hb|].
  apply (scan_product_reaches EmptyString apple 17 Hin Hb).
Defined.
